(** * waybackurls: a shallow embedding of [main.go]

    The program queries three archive services for the URLs they know of a
    domain, merges the answers, drops the URLs already printed and prints
    the rest, optionally with the capture date.  A second mode lists the
    archived versions of one URL.

    Go strings are byte strings and are modelled by [string]; the map
    [map[string]bool] is a [gmap string bool]; a Go [error] is an
    [option error], [None] standing for [nil].  What the outside world
    answers (the HTTP reply and what the JSON decoder makes of its body) is
    an input of the model.  A run-time panic (index out of range) is the
    outcome [Panicked]. *)

From Stdlib Require Import ZArith Ascii String.
From stdpp Require Import gmap strings list.

Local Open Scope string_scope.
Local Open Scope list_scope.
Local Open Scope stdpp_scope.

(** ** Data model *)

(** The text of a Go [error]; only its presence matters to the program. *)
Definition error : Type := string.

(** [type wurl struct { date string; url string }] *)
Record wurl : Type := Wurl { date : string; url : string }.

#[global] Instance wurl_eq_dec : EqDecision wurl.
Proof. solve_decision. Defined.

(** The outcome of running a Go function body: it returns, or it panics. *)
Inductive run (A : Type) : Type :=
| Returned (a : A)
| Panicked.
Arguments Returned {A} a.
Arguments Panicked {A}.

(** What a JSON decoder leaves behind: the value now held by the target
    variable and the error it returned.  [json.Unmarshal] and
    [Decoder.Decode] fill the target as far as they get, so a value can come
    with an error. *)
Record decoded (A : Type) : Type := Decoded { target : A; decode_err : option error }.
Arguments Decoded {A} target decode_err.
Arguments target {A} d.
Arguments decode_err {A} d.

(** The answer of [httpClient.Get]. *)
Inductive reply (B : Type) : Type :=
| GetFailed (e : error)
| GetReplied (body : B).
Arguments GetFailed {B} e.
Arguments GetReplied {B} body.

(** The answer of [ioutil.ReadAll] on a reply body. *)
Inductive read_all (B : Type) : Type :=
| ReadFailed (e : error)
| ReadDone (raw : B).
Arguments ReadFailed {B} e.
Arguments ReadDone {B} raw.

(** A call of an adapter: the URLs it requested, in order, and its outcome. *)
Record call (A : Type) : Type := Call { requests : list string; outcome : run A }.
Arguments Call {A} requests outcome.
Arguments requests {A} c.
Arguments outcome {A} c.

(** [type fetchFn func(string, bool) ([]wurl, error)] *)
Definition fetched : Type := (list wurl * option error)%type.

(** ** The archive-index adapter, [getWaybackURLs] *)

Module Wayback.

(** The body of the reply, as [json.Unmarshal(raw, &wrapper)] decodes it
    into [wrapper [][]string]. *)
Definition body : Type := read_all (decoded (list (list string))).

Definition fetchURL (domain : string) (noSubs : bool) : string :=
  let subsWildcard := if noSubs then "" else "*." in
  "http://web.archive.org/cdx/search/cdx?url=" +:+ subsWildcard +:+ domain
    +:+ "/*&output=json&collapse=urlkey".

(** The loop [for _, urls := range wrapper], with its [skip] flag. *)
Fixpoint rows (skip : bool) (out : list wurl) (wrapper : list (list string))
  : run (list wurl) :=
  match wrapper with
  | [] => Returned out
  | urls :: rest =>
      if skip then rows false out rest
      else
        match urls !! 1%nat, urls !! 2%nat with
        | Some d, Some u => rows false (out ++ [Wurl d u]) rest
        | _, _ => Panicked
        end
  end.

Definition getWaybackURLs (Get : string -> reply body)
    (domain : string) (noSubs : bool) : call fetched :=
  let u := fetchURL domain noSubs in
  Call [u]
    match Get u with
    | GetFailed e => Returned ([], Some e)
    | GetReplied (ReadFailed e) => Returned ([], Some e)
    | GetReplied (ReadDone (Decoded wrapper _)) =>
        (* the error of json.Unmarshal is assigned and not looked at *)
        match rows true [] wrapper with
        | Returned out => Returned (out, None)
        | Panicked => Panicked
        end
    end.

End Wayback.

(** ** The version lister, [getVersions] *)

Module Versions.

Definition body : Type := decoded (list (list string)).

Definition fetchURL (u : string) : string :=
  "http://web.archive.org/cdx/search/cdx?url=" +:+ u +:+ "&output=json".

(** [fmt.Sprintf("https://web.archive.org/web/%sif_/%s", s[1], s[2])] *)
Definition snapshot (ts original : string) : string :=
  "https://web.archive.org/web/" +:+ ts +:+ "if_/" +:+ original.

(** The loop [for _, s := range r], with its [first] flag and [seen] map. *)
Fixpoint rows (first : bool) (seen : gmap string bool) (out : list string)
    (r : list (list string)) : run (list string) :=
  match r with
  | [] => Returned out
  | s :: rest =>
      if first then rows false seen out rest
      else
        match s !! 5%nat with
        | None => Panicked
        | Some digest =>
            if default false (seen !! digest) then rows false seen out rest
            else
              match s !! 1%nat, s !! 2%nat with
              | Some ts, Some original =>
                  rows false (<[digest := true]> seen)
                    (out ++ [snapshot ts original]) rest
              | _, _ => Panicked
              end
        end
  end.

Definition getVersions (Get : string -> reply body) (u : string)
  : call (list string * option error) :=
  let q := fetchURL u in
  Call [q]
    match Get q with
    | GetFailed e => Returned ([], Some e)
    | GetReplied (Decoded r (Some e)) => Returned ([], Some e)
    | GetReplied (Decoded r None) =>
        match rows true ∅ [] r with
        | Returned out => Returned (out, None)
        | Panicked => Panicked
        end
    end.

End Versions.

(** ** The crawl-index adapter, [getCommonCrawlURLs] *)

Module CommonCrawl.

(** The anonymous struct each line is decoded into. *)
Record wrapper : Type := Wrapper { URL : string; Timestamp : string }.

(** The body of the reply: the lines [bufio.Scanner] yields, each as
    [json.Unmarshal] decodes it. *)
Definition body : Type := list (decoded wrapper).

Definition fetchURL (domain : string) (noSubs : bool) : string :=
  let subsWildcard := if noSubs then "" else "*." in
  "http://index.commoncrawl.org/CC-MAIN-2018-22-index?url=" +:+ subsWildcard
    +:+ domain +:+ "/*&output=json".

(** The loop [for sc.Scan()]. *)
Fixpoint lines (out : list wurl) (sc : body) : list wurl :=
  match sc with
  | [] => out
  | Decoded w (Some _) :: rest => lines out rest
  | Decoded w None :: rest => lines (out ++ [Wurl (Timestamp w) (URL w)]) rest
  end.

Definition getCommonCrawlURLs (Get : string -> reply body)
    (domain : string) (noSubs : bool) : call fetched :=
  let u := fetchURL domain noSubs in
  Call [u]
    match Get u with
    | GetFailed e => Returned ([], Some e)
    | GetReplied sc => Returned (lines [] sc, None)
    end.

End CommonCrawl.

(** ** The reputation-index adapter, [getVirusTotalURLs] *)

Module VirusTotal.

(** The body of the reply, as [dec.Decode(&wrapper)] decodes it: the [url]
    fields of [wrapper.URLs]. *)
Definition body : Type := decoded (list string).

(** [os.Getenv]: the value of the variable, empty when it is not set. *)
Definition Getenv (env : gmap string string) (key : string) : string :=
  default "" (env !! key).

Definition fetchURL (apiKey domain : string) : string :=
  "https://www.virustotal.com/vtapi/v2/domain/report?apikey=" +:+ apiKey
    +:+ "&domain=" +:+ domain.

(** The loop [for _, u := range wrapper.URLs]. *)
Fixpoint urls (out : list wurl) (us : list string) : list wurl :=
  match us with
  | [] => out
  | u :: rest => urls (out ++ [Wurl "" u]) rest
  end.

Definition getVirusTotalURLs (env : gmap string string)
    (Get : string -> reply body) (domain : string) (noSubs : bool)
  : call fetched :=
  let out := [] in
  let apiKey := Getenv env "VT_API_KEY" in
  if bool_decide (apiKey = "") then Call [] (Returned (out, None))
  else
    let u := fetchURL apiKey domain in
    Call [u]
      match Get u with
      | GetFailed e => Returned (out, Some e)
      | GetReplied (Decoded us _) =>
          (* the error of dec.Decode is assigned and not looked at *)
          Returned (urls out us, None)
      end.

End VirusTotal.

(** ** [time.Parse("20060102150405", _)] and [Format(time.RFC3339)]

    The part of Go's [time] package the program uses: parsing under the
    layout [20060102150405], which splits into the elements [2006] (year,
    four digits), [01] (month), [02] (day), [15] (hour), [04] (minute) and
    [05] (second), and printing a UTC time under [RFC3339]. *)

Module GoTime.

Local Open Scope Z_scope.

Record Time : Type :=
  MkTime { year : Z; month : Z; day : Z; hour : Z; minute : Z; second : Z; nsec : Z }.

(** [Time{}], January 1 of year 1, 00:00:00 UTC. *)
Definition zero : Time := MkTime 1 1 1 0 0 0 0.

Definition is_digit (c : ascii) : bool :=
  (48 <=? nat_of_ascii c)%nat && (nat_of_ascii c <=? 57)%nat.

Definition digit (c : ascii) : Z := Z.of_nat (nat_of_ascii c) - 48.

(** [isDigit(s, i)] *)
Definition isDigit (s : string) (i : nat) : bool :=
  match String.get i s with
  | Some c => is_digit c
  | None => false
  end.

(** [getnum(s, fixed)]: one or two digits, two when [fixed]. *)
Definition getnum (s : string) (fixed : bool) : option (Z * string) :=
  match s with
  | String a rest =>
      if is_digit a then
        match rest with
        | String b rest' =>
            if is_digit b then Some (digit a * 10 + digit b, rest')
            else if fixed then None else Some (digit a, rest)
        | EmptyString => if fixed then None else Some (digit a, rest)
        end
      else None
  | EmptyString => None
  end.

(** [leadingInt] followed by the test that nothing is left. *)
Fixpoint digits (acc : Z) (s : string) : option Z :=
  match s with
  | EmptyString => Some acc
  | String c rest => if is_digit c then digits (acc * 10 + digit c) rest else None
  end.

(** [atoi]: an optional sign, then digits only. *)
Definition atoi (s : string) : option Z :=
  match s with
  | String "-" rest => Z.opp <$> digits 0 rest
  | String "+" rest => digits 0 rest
  | _ => digits 0 s
  end.

(** The element [2006]: four bytes, the first a digit, read by [atoi]. *)
Definition getyear (value : string) : option (Z * string) :=
  if (String.length value <? 4)%nat || negb (isDigit value 0) then None
  else y ← atoi (substring 0 4 value);
       Some (y, substring 4 (String.length value - 4) value).

Definition commaOrPeriod (c : ascii) : bool :=
  bool_decide (c = "."%char) || bool_decide (c = ","%char).

(** The number of leading bytes of [s] that are digits. *)
Fixpoint span_digits (s : string) : nat :=
  match s with
  | String c rest => if is_digit c then S (span_digits rest) else 0%nat
  | EmptyString => 0%nat
  end.

(** [parseNanoseconds(value, nbytes)], [value] starting with a comma or a
    period followed by [nbytes - 1] digits. *)
Definition parseNanoseconds (value : string) (nbytes : nat) : option Z :=
  let nbytes := Nat.min nbytes 10 in
  ns ← atoi (substring 1 (nbytes - 1) value);
  Some (ns * 10 ^ Z.of_nat (10 - nbytes)).

(** A fraction of a second in the input that the layout does not have:
    read after the seconds, and skipped. *)
Definition fraction (value : string) : option (Z * string) :=
  match value with
  | String c rest =>
      if commaOrPeriod c && isDigit value 1 then
        let n := S (span_digits rest) in
        ns ← parseNanoseconds value n;
        Some (ns, substring n (String.length value - n) value)
      else Some (0, value)
  | EmptyString => Some (0, value)
  end.

Definition isLeap (y : Z) : bool :=
  (y mod 4 =? 0) && (negb (y mod 100 =? 0) || (y mod 400 =? 0)).

Definition daysIn (m y : Z) : Z :=
  if (m =? 2) then (if isLeap y then 29 else 28)
  else if (m =? 4) || (m =? 6) || (m =? 9) || (m =? 11) then 30
  else 31.

(** The elements of the layout in turn, each with its range test, then
    the test that the input is used up and that the day exists. *)
Definition parse (value : string) : option Time :=
  '(y, value) ← getyear value;
  '(mo, value) ← getnum value true;
  if (mo <=? 0) || (12 <? mo) then None else
  '(d, value) ← getnum value true;
  '(h, value) ← getnum value false;
  if (h <? 0) || (24 <=? h) then None else
  '(mi, value) ← getnum value true;
  if (mi <? 0) || (60 <=? mi) then None else
  '(s, value) ← getnum value true;
  if (s <? 0) || (60 <=? s) then None else
  '(ns, value) ← fraction value;
  if negb (bool_decide (value = "")) then None else
  if (d <? 1) || (daysIn mo y <? d) then None else
  Some (MkTime y mo d h mi s ns).

(** [time.Parse("20060102150405", value)]: the time and a nil error, or
    [Time{}] and an error. *)
Definition Parse (value : string) : Time * option error :=
  match parse value with
  | Some t => (t, None)
  | None => (zero, Some ("parsing time: cannot parse " +:+ value))
  end.

Definition digit_char (d : Z) : ascii := ascii_of_nat (48 + Z.to_nat d).

(** [appendInt(b, x, 2)] and [appendInt(b, x, 4)], for [0 <= x]. *)
Definition pad2 (x : Z) : string :=
  String (digit_char (x / 10 mod 10)) (String (digit_char (x mod 10)) "").
Definition pad4 (x : Z) : string :=
  String (digit_char (x / 1000 mod 10)) (String (digit_char (x / 100 mod 10)) (pad2 x)).

(** [t.Format(time.RFC3339)] for a UTC time with a year of four digits. *)
Definition RFC3339 (t : Time) : string :=
  pad4 (year t) +:+ "-" +:+ pad2 (month t) +:+ "-" +:+ pad2 (day t) +:+ "T"
    +:+ pad2 (hour t) +:+ ":" +:+ pad2 (minute t) +:+ ":" +:+ pad2 (second t) +:+ "Z".

End GoTime.

(** ** The dispatcher of [main]: one task per adapter *)

Section Dispatcher.

(** The library functions [isSubdomain] calls: [url.Parse] ([None] when it
    returns an error), the method [Hostname] of its result and
    [strings.ToLower]. *)
Context {URL : Type}.
Variable url_Parse : string -> option URL.
Variable Hostname : URL -> string.
Variable ToLower : string -> string.

Definition isSubdomain (rawUrl domain : string) : bool :=
  match url_Parse rawUrl with
  | None => false
  | Some u => negb (bool_decide (ToLower (Hostname u) = ToLower domain))
  end.

(** The loop [for _, r := range resp]: the records sent on [wurls]. *)
Fixpoint send (noSubs : bool) (domain : string) (resp : list wurl) : list wurl :=
  match resp with
  | [] => []
  | r :: rest =>
      if noSubs && isSubdomain (url r) domain then send noSubs domain rest
      else r :: send noSubs domain rest
  end.

(** The goroutine of one adapter, from the return of [fetch] on: the
    records it sends, in order. *)
Definition task (noSubs : bool) (domain : string) (fetch : run fetched)
  : run (list wurl) :=
  match fetch with
  | Panicked => Panicked
  | Returned (resp, Some _) => Returned []
  | Returned (resp, None) => Returned (send noSubs domain resp)
  end.

End Dispatcher.

(** The channel [wurls]: the receiver sees the records of the tasks in some
    interleaving, each task's records in the order it sent them. *)
Inductive merged : list (list wurl) -> list wurl -> Prop :=
| merged_closed (tasks : list (list wurl)) :
    Forall (λ q, q = []) tasks -> merged tasks []
| merged_recv (tasks : list (list wurl)) (i : nat) (w : wurl)
    (q ws : list wurl) :
    tasks !! i = Some (w :: q) ->
    merged (<[i := q]> tasks) ws ->
    merged tasks (w :: ws).

(** ** The printing loop of [main] *)

(** A write to the output file or to the standard error stream. *)
Inductive event : Type :=
| Stdout (text : string)
| Stderr (text : string).

#[global] Instance event_eq_dec : EqDecision event.
Proof. solve_decision. Defined.

(** The line break. *)
Definition nl : string := String (ascii_of_nat 10) "".

(** The texts written to the output file, in order. *)
Fixpoint stdout (es : list event) : list string :=
  match es with
  | [] => []
  | Stdout t :: es' => t :: stdout es'
  | Stderr _ :: es' => stdout es'
  end.

(** The body of the loop for a record that was not seen before. *)
Definition print (dates : bool) (w : wurl) : list event :=
  if dates then
    let '(d, err) := GoTime.Parse (date w) in
    (if err is Some _ then
       [Stderr ("failed to parse date [" +:+ date w +:+ "] for URL [" +:+ url w
                  +:+ "]" +:+ nl)]
     else [])
    ++ [Stdout (GoTime.RFC3339 d +:+ " " +:+ url w +:+ nl)]
  else [Stdout (url w +:+ nl)].

(** The loop [for w := range wurls], over the records received. *)
Fixpoint drain (dates : bool) (seen : gmap string bool) (wurls : list wurl)
  : list event :=
  match wurls with
  | [] => []
  | w :: rest =>
      match seen !! url w with
      | Some _ => drain dates seen rest
      | None => print dates w ++ drain dates (<[url w := true]> seen) rest
      end
  end.

(** The loop [for _, domain := range domains], over the records each
    domain's channel delivered: [seen] is made anew in every turn. *)
Fixpoint domains_loop (dates : bool) (received : list (list wurl)) : list event :=
  match received with
  | [] => []
  | wurls :: rest =>
      let seen : gmap string bool := ∅ in
      drain dates seen wurls ++ domains_loop dates rest
  end.

(** ** Notions of the specification *)

Section FirstBy.

Context {A K : Type} `{EqDecision K}.
Variable key : A -> K.

(** An element is kept when no element before it has its key; [earlier]
    holds the keys of the elements before. *)
Fixpoint keep_first (earlier : list K) (l : list A) : list A :=
  match l with
  | [] => []
  | x :: l' =>
      if decide (key x ∈ earlier) then keep_first (key x :: earlier) l'
      else x :: keep_first (key x :: earlier) l'
  end.

(** The first element of every key, in the order of the list. *)
Definition first_by (l : list A) : list A := keep_first [] l.

End FirstBy.

(** The content digest of a row of the version listing, column 5. *)
Definition digest (s : list string) : string := default "" (s !! 5%nat).

(** The record of a row of the archive index: columns 1 and 2. *)
Definition row_record (urls : list string) : wurl :=
  Wurl (default "" (urls !! 1%nat)) (default "" (urls !! 2%nat)).

(** The snapshot URL of a row of the version listing. *)
Definition row_snapshot (s : list string) : string :=
  Versions.snapshot (default "" (s !! 1%nat)) (default "" (s !! 2%nat)).

(** URL-encoding of a query component, as Go's [url.QueryEscape] does it:
    letters, digits and [-_.~] stay, a space becomes [+], every other byte
    becomes [%XX]. *)
Module Escape.

Definition unreserved (c : ascii) : bool :=
  let n := nat_of_ascii c in
  ((48 <=? n) && (n <=? 57) || (65 <=? n) && (n <=? 90)
   || (97 <=? n) && (n <=? 122))%nat
  || bool_decide (c ∈ ["-"; "_"; "."; "~"]%char).

Definition hex (n : nat) : ascii :=
  default "0"%char (String.get n "0123456789ABCDEF").

Fixpoint QueryEscape (s : string) : string :=
  match s with
  | EmptyString => ""
  | String c rest =>
      (if unreserved c then String c ""
       else if bool_decide (c = " "%char) then "+"
       else String "%" (String (hex (nat_of_ascii c / 16))
              (String (hex (nat_of_ascii c mod 16)) "")))
      +:+ QueryEscape rest
  end.

(** The query URL of the archive index as the specification words it: the
    wildcard marker is put before the target and the result is URL-encoded
    into the query string. *)
Definition spec_fetchURL (domain : string) (noSubs : bool) : string :=
  "http://web.archive.org/cdx/search/cdx?url="
    +:+ QueryEscape ((if noSubs then "" else "*.") +:+ domain)
    +:+ "/*&output=json&collapse=urlkey".

End Escape.

(** The digests [seen] holds are those of the rows before. *)
Definition seen_digests (seen : gmap string bool) (earlier : list string) : Prop :=
  forall k, default false (seen !! k) = true <-> k ∈ earlier.

(** The URLs [seen] holds are those of the records before. *)
Definition seen_urls (seen : gmap string bool) (earlier : list string) : Prop :=
  forall k, is_Some (seen !! k) <-> k ∈ earlier.

(** The text the printing loop writes to the output file for a record. *)
Definition line (dates : bool) (w : wurl) : string :=
  if dates then GoTime.RFC3339 (GoTime.Parse (date w)).1 +:+ " " +:+ url w +:+ nl
  else url w +:+ nl.

(** ** A stand-in for the library functions of [isSubdomain]

    The claims about [isSubdomain] hold for any [url.Parse], [Hostname] and
    [strings.ToLower].  For examples they are instantiated with the functions
    below, which agree with Go's on the addresses the examples use: a URL
    that begins with a colon is refused (Go: missing protocol scheme), the
    host is the text between [://] and the next slash, and lower case is
    that of the ASCII letters. *)

Module Sample.

Definition lower (c : ascii) : ascii :=
  let n := nat_of_ascii c in
  if ((65 <=? n) && (n <=? 90))%nat then ascii_of_nat (n + 32) else c.

Fixpoint ToLower (s : string) : string :=
  match s with
  | EmptyString => ""
  | String c rest => String (lower c) (ToLower rest)
  end.

Fixpoint until_slash (s : string) : string :=
  match s with
  | EmptyString => ""
  | String "/" _ => ""
  | String c rest => String c (until_slash rest)
  end.

Fixpoint host (s : string) : string :=
  match s with
  | EmptyString => ""
  | String ":" (String "/" (String "/" rest)) => until_slash rest
  | String _ rest => host rest
  end.

Definition url_Parse (rawUrl : string) : option string :=
  match rawUrl with
  | String ":" _ => None
  | _ => Some (host rawUrl)
  end.

Definition Hostname (u : string) : string := u.

End Sample.

(** ** [strings.Split(_, ",")] and [strings.Join] *)

(** [strings.Split(s, ",")]: the pieces of [s] between the commas, one more
    than there are commas. *)
Fixpoint Split_comma (s : string) : list string :=
  match s with
  | EmptyString => [""]
  | String c rest =>
      if bool_decide (c = ","%char) then "" :: Split_comma rest
      else
        match Split_comma rest with
        | piece :: pieces => String c piece :: pieces
        | [] => [String c ""]
        end
  end.

(** [strings.Join(elems, sep)] *)
Fixpoint Join (elems : list string) (sep : string) : string :=
  match elems with
  | [] => ""
  | [x] => x
  | x :: rest => x +:+ sep +:+ Join rest sep
  end.

(** A piece of text that holds a comma. *)
Fixpoint has_comma (s : string) : bool :=
  match s with
  | EmptyString => false
  | String c rest => bool_decide (c = ","%char) || has_comma rest
  end.

(** ** The function [main] *)

Module Main.

(** The adapters of the catalogue. *)
Inductive source : Type := wayback | commoncrawl | virustotal.

#[global] Instance source_eq_dec : EqDecision source.
Proof. solve_decision. Defined.

(** The name of an adapter in the flag [-sources]. *)
Definition source_name (fn : source) : string :=
  match fn with
  | wayback => "wayback"
  | commoncrawl => "commoncrawl"
  | virustotal => "virustotal"
  end.

(** The flags [main] reads after [flag.Parse]. *)
Record flags : Type := Flags {
  dates : bool;
  noSubs : bool;
  getVersionsFlag : bool;
  sourcesFlag : string;
  concurrency : Z
}.

(** The outside world of a run: the environment and what the services
    answer to a request. *)
Record world : Type := World {
  env : gmap string string;
  wayback_Get : string -> reply Wayback.body;
  commoncrawl_Get : string -> reply CommonCrawl.body;
  virustotal_Get : string -> reply VirusTotal.body;
  versions_Get : string -> reply Versions.body
}.

(** How the program ends: [os.Exit] or the return of [main], a panic, or
    all goroutines blocked for ever.  What the Go runtime itself writes when
    it ends the program is not among the events of a run. *)
Inductive status : Type :=
| Exit (code : Z)
| Crashed
| Deadlocked.

(** A call of an adapter of the catalogue. *)
Definition fetch (W : world) (fn : source) (domain : string) (noSubs : bool)
  : call fetched :=
  match fn with
  | wayback => Wayback.getWaybackURLs (wayback_Get W) domain noSubs
  | commoncrawl => CommonCrawl.getCommonCrawlURLs (commoncrawl_Get W) domain noSubs
  | virustotal => VirusTotal.getVirusTotalURLs (env W) (virustotal_Get W) domain noSubs
  end.

(** The loop [for _, u := range domains] of the mode [-get-versions]. *)
Fixpoint versions_loop (Get : string -> reply Versions.body) (domains : list string)
  : list event * status :=
  match domains with
  | [] => ([], Exit 0)
  | u :: rest =>
      match outcome (Versions.getVersions Get u) with
      | Panicked => ([], Crashed)
      | Returned (_, Some _) => versions_loop Get rest
      | Returned (versions, None) =>
          let '(es, st) := versions_loop Get rest in
          (Stdout (Join versions nl +:+ nl) :: es, st)
      end
  end.

(** The queues of the tasks that returned. *)
Definition queues (tasks : list (run (list wurl))) : list (list wurl) :=
  omap (λ t, match t with Returned q => Some q | Panicked => None end) tasks.

(** No task panicked. *)
Definition all_returned (tasks : list (run (list wurl))) : bool :=
  forallb (λ t, match t with Returned _ => true | Panicked => false end) tasks.

Definition no_sources : string :=
  "no valid sources specified. Please choose from: wayback, commoncrawl, virustotal"
    +:+ nl.

Section Run.

(** The library functions: those of [isSubdomain], and [strings.TrimSpace]. *)
Context {URL : Type}.
Variable url_Parse : string -> option URL.
Variable Hostname : URL -> string.
Variable ToLower : string -> string.
Variable TrimSpace : string -> string.

(** The map [sources], filled by the loop over the pieces of the flag. *)
Definition sources (sourcesFlag : string) : gmap string bool :=
  foldl (λ m s, <[TrimSpace s := true]> m) ∅ (Split_comma sourcesFlag).

(** The slice [fetchFns]. *)
Definition fetchFns (sourcesFlag : string) : list source :=
  let sources := sources sourcesFlag in
  (if default false (sources !! "wayback") then [wayback] else [])
  ++ (if default false (sources !! "commoncrawl") then [commoncrawl] else [])
  ++ (if default false (sources !! "virustotal") then [virustotal] else []).

(** The goroutines started for a domain, one for every fetch function. *)
Definition tasks (F : flags) (W : world) (domain : string) : list (run (list wurl)) :=
  (λ fn, task url_Parse Hostname ToLower (noSubs F) domain
           (outcome (fetch W fn domain (noSubs F))))
    <$> fetchFns (sourcesFlag F).

(** The loop [for _, domain := range domains].  A channel of negative
    capacity cannot be made; with a limiter of capacity 0 no task gets its
    token, no task ends and nothing is received.  Otherwise the records
    received are an interleaving of those the tasks send; a task that
    panics ends the program, the records received until then being
    printed. *)
Inductive dispatch (F : flags) (W : world)
  : list string -> list event -> status -> Prop :=
| dispatch_done :
    dispatch F W [] [] (Exit 0)
| dispatch_makechan (domain : string) (rest : list string) :
    (concurrency F < 0)%Z ->
    dispatch F W (domain :: rest) [] Crashed
| dispatch_deadlock (domain : string) (rest : list string) :
    concurrency F = 0%Z ->
    dispatch F W (domain :: rest) [] Deadlocked
| dispatch_domain (domain : string) (rest : list string) (wurls : list wurl)
    (es : list event) (st : status) :
    (0 < concurrency F)%Z ->
    all_returned (tasks F W domain) = true ->
    merged (queues (tasks F W domain)) wurls ->
    dispatch F W rest es st ->
    dispatch F W (domain :: rest) (drain (dates F) ∅ wurls ++ es) st
| dispatch_panic (domain : string) (rest : list string) (wurls received : list wurl) :
    (0 < concurrency F)%Z ->
    all_returned (tasks F W domain) = false ->
    merged (queues (tasks F W domain)) wurls ->
    received `prefix_of` wurls ->
    dispatch F W (domain :: rest) (drain (dates F) ∅ received) Crashed.

(** [main], from the list of domains on. *)
Inductive main (F : flags) (W : world) (domains : list string)
  : list event -> status -> Prop :=
| main_versions :
    getVersionsFlag F = true ->
    main F W domains (versions_loop (versions_Get W) domains).1
      (versions_loop (versions_Get W) domains).2
| main_no_sources :
    getVersionsFlag F = false ->
    fetchFns (sourcesFlag F) = [] ->
    main F W domains [Stderr no_sources] (Exit 1)
| main_dispatch (es : list event) (st : status) :
    getVersionsFlag F = false ->
    fetchFns (sourcesFlag F) <> [] ->
    dispatch F W domains es st ->
    main F W domains es st.

End Run.

(** The rows of the archive-index answer for a domain have their columns. *)
Definition wayback_rows_ok (F : flags) (W : world) (domain : string) : Prop :=
  match wayback_Get W (Wayback.fetchURL domain (noSubs F)) with
  | GetReplied (ReadDone (Decoded wrapper _)) =>
      Forall (λ r, 3 <= length r) (drop 1 wrapper)
  | _ => True
  end.

End Main.

(** A stand-in for [strings.TrimSpace] on ASCII text: the white space at the
    two ends is removed. *)
Module SampleTrim.

Definition is_space (c : ascii) : bool :=
  bool_decide (nat_of_ascii c ∈ [9; 10; 11; 12; 13; 32]).

Fixpoint trim_left (s : string) : string :=
  match s with
  | EmptyString => ""
  | String c rest => if is_space c then trim_left rest else s
  end.

Fixpoint trim_right (s : string) : string :=
  match s with
  | EmptyString => ""
  | String c rest =>
      match trim_right rest with
      | EmptyString => if is_space c then "" else String c ""
      | rest' => String c rest'
      end
  end.

Definition TrimSpace (s : string) : string := trim_right (trim_left s).

End SampleTrim.

(** ** Flags and worlds for examples *)

Module SampleRun.

(** The default flags: every source, five requests at a time. *)
Definition defaults : Main.flags :=
  Main.Flags false false false "wayback,commoncrawl,virustotal" 5.

(** The flag [-get-versions], with no source and no capacity. *)
Definition versions : Main.flags := Main.Flags false false true "none" 0.

(** No known source. *)
Definition unknown : Main.flags := Main.Flags false false false "archive" 5.

(** The archive index and the crawl index alone. *)
Definition two : Main.flags := Main.Flags false false false "wayback, commoncrawl" 5.

(** The default flags with [-concurrency 0]. *)
Definition blocked : Main.flags :=
  Main.Flags false false false "wayback,commoncrawl,virustotal" 0.

(** The archive index knows one page, captured twice, the crawl index knows
    one page more and has one line that does not decode; there is no key
    for the reputation index; the page has two captures of one content. *)
Definition archive : Main.world :=
  Main.World ∅
    (λ _, GetReplied (ReadDone (Decoded
       [ ["urlkey"; "timestamp"; "original"];
         ["com,example)/a"; "20200101000000"; "http://example.com/a"];
         ["com,example)/a"; "20210101000000"; "http://example.com/a"] ] None)))
    (λ _, GetReplied
       [ Decoded (CommonCrawl.Wrapper "http://example.com/b" "20180521000000") None;
         Decoded (CommonCrawl.Wrapper "" "") (Some "unexpected end of JSON input") ])
    (λ _, GetFailed "unreachable")
    (λ _, GetReplied (Decoded
       [ ["urlkey"; "timestamp"; "original"; "mimetype"; "statuscode"; "digest"; "length"];
         ["com,example)/a"; "20200101000000"; "http://example.com/a"; "text/html"; "200"; "AAAA"; "1"];
         ["com,example)/a"; "20210101000000"; "http://example.com/a"; "text/html"; "200"; "AAAA"; "1"] ]
       None)).

(** No service answers. *)
Definition offline : Main.world :=
  Main.World ∅ (λ _, GetFailed "no route to host") (λ _, GetFailed "no route to host")
    (λ _, GetFailed "no route to host") (λ _, GetFailed "no route to host").

(** The archive index answers with a row of two columns. *)
Definition truncated : Main.world :=
  Main.World ∅
    (λ _, GetReplied (ReadDone (Decoded
       [ ["urlkey"; "timestamp"; "original"]; ["com,example)/a"; "20200101000000"] ] None)))
    (λ _, GetFailed "no route to host") (λ _, GetFailed "no route to host")
    (λ _, GetReplied (Decoded [ ["urlkey"]; ["com,example)/a"] ] None)).

End SampleRun.

(** * Properties *)

(** ** First elements by key *)

Section FirstByFacts.

Context {A K : Type} `{EqDecision K}.
Variable key : A -> K.

Lemma keep_first_elem (earlier : list K) (l : list A) (x : A) :
  x ∈ keep_first key earlier l <->
  exists l1 l2, l = l1 ++ x :: l2 /\ (key x ∉ earlier) /\ (key x ∉ (key <$> l1)).
Proof.
  revert earlier.
  induction l as [|y l IH]; intros earlier; simpl.
  - split.
    + intros Hx. inversion Hx.
    + intros (l1 & l2 & Hl & _). by destruct l1.
  - assert (Hstep : x ∈ keep_first key (key y :: earlier) l <->
              exists l1 l2, y :: l = (y :: l1) ++ x :: l2 /\ (key x ∉ earlier)
                            /\ (key x ∉ (key <$> (y :: l1)))).
    { rewrite IH. split.
      - intros (l1 & l2 & -> & Hk & Hl1). exists l1, l2.
        rewrite not_elem_of_cons in Hk. destruct Hk as [Hne Hk].
        split; [done|]. split; [done|].
        rewrite fmap_cons, not_elem_of_cons. done.
      - intros (l1 & l2 & Heq & Hk & Hl1). exists l1, l2.
        simpl in Heq. injection Heq as ->.
        rewrite fmap_cons, not_elem_of_cons in Hl1. destruct Hl1 as [Hne Hl1].
        split; [done|]. split; [|done].
        rewrite not_elem_of_cons. done. }
    destruct (decide (key y ∈ earlier)) as [Hin|Hnin].
    + rewrite Hstep. split.
      * intros (l1 & l2 & ?). by exists (y :: l1), l2.
      * intros (l1 & l2 & Heq & Hk & Hl1). destruct l1 as [|z l1].
        -- simpl in Heq. injection Heq as -> ->. done.
        -- simpl in Heq. injection Heq as -> ->. by exists l1, l2.
    + rewrite elem_of_cons, Hstep. split.
      * intros [->|(l1 & l2 & ?)].
        -- exists [], l. split; [done|]. split; [done|]. simpl. apply not_elem_of_nil.
        -- by exists (y :: l1), l2.
      * intros (l1 & l2 & Heq & Hk & Hl1). destruct l1 as [|z l1].
        -- simpl in Heq. injection Heq as -> ->. by left.
        -- simpl in Heq. injection Heq as -> ->. right. by exists l1, l2.
Qed.

Lemma keep_first_NoDup (earlier : list K) (l : list A) :
  NoDup (key <$> keep_first key earlier l).
Proof.
  revert earlier.
  induction l as [|y l IH]; intros earlier; simpl.
  - constructor.
  - destruct (decide (key y ∈ earlier)); [apply IH|].
    rewrite fmap_cons. constructor; [|apply IH].
    rewrite list_elem_of_fmap. intros (x & Hk & Hx).
    apply keep_first_elem in Hx. destruct Hx as (_ & _ & _ & Hnot & _).
    apply Hnot. rewrite Hk. by left.
Qed.

Lemma keep_first_sublist (earlier : list K) (l : list A) :
  keep_first key earlier l `sublist_of` l.
Proof.
  revert earlier.
  induction l as [|y l IH]; intros earlier; simpl.
  - constructor.
  - destruct (decide (key y ∈ earlier)).
    + by apply sublist_cons.
    + by apply sublist_skip.
Qed.

Lemma keep_first_covers (earlier : list K) (l : list A) (x : A) :
  x ∈ l -> key x ∈ earlier \/ key x ∈ key <$> keep_first key earlier l.
Proof.
  revert earlier.
  induction l as [|y l IH]; intros earlier Hx; simpl.
  - inversion Hx.
  - apply elem_of_cons in Hx.
    destruct (decide (key y ∈ earlier)) as [Hin|Hnin].
    + destruct Hx as [->|Hx]; [by left|].
      destruct (IH (key y :: earlier) Hx) as [Hk|Hk]; [|by right].
      apply elem_of_cons in Hk. destruct Hk as [->|Hk]; by left.
    + rewrite fmap_cons. destruct Hx as [->|Hx]; [right; by left|].
      destruct (IH (key y :: earlier) Hx) as [Hk|Hk].
      * apply elem_of_cons in Hk. destruct Hk as [->|Hk]; [right; by left|by left].
      * right. by right.
Qed.

Lemma first_by_elem (l : list A) (x : A) :
  x ∈ first_by key l <->
  exists l1 l2, l = l1 ++ x :: l2 /\ (key x ∉ (key <$> l1)).
Proof.
  unfold first_by. rewrite keep_first_elem. split.
  - intros (l1 & l2 & ? & _ & ?). by exists l1, l2.
  - intros (l1 & l2 & ? & ?). exists l1, l2.
    split; [done|]. split; [apply not_elem_of_nil|done].
Qed.

Lemma first_by_covers (l : list A) (x : A) :
  x ∈ l -> key x ∈ key <$> first_by key l.
Proof.
  intros Hx. destruct (keep_first_covers [] l x Hx) as [Hk|Hk]; [|done].
  inversion Hk.
Qed.

End FirstByFacts.

(** ** Rows with enough columns *)

Lemma rows_long_or_short (n : nat) (rs : list (list string)) :
  Forall (λ r, n <= length r) rs \/ Exists (λ r, length r < n) rs.
Proof.
  induction rs as [|r rs [IH|IH]].
  - left. constructor.
  - destruct (le_lt_dec n (length r)).
    + left. by constructor.
    + right. by apply Exists_cons_hd.
  - right. by apply Exists_cons_tl.
Qed.

Lemma lookup_long (r : list string) (n i : nat) :
  n <= length r -> i < n -> exists x, r !! i = Some x.
Proof.
  intros Hn Hi. apply lookup_lt_is_Some. lia.
Qed.

Lemma lookup_short (r : list string) (n : nat) :
  length r < S n -> r !! n = None.
Proof.
  intros Hn. apply lookup_ge_None. lia.
Qed.

(** ** The archive-index rows *)

Lemma wayback_rows_long (out : list wurl) (rs : list (list string)) :
  Forall (λ r, 3 <= length r) rs ->
  Wayback.rows false out rs = Returned (out ++ (row_record <$> rs)).
Proof.
  intros Hrs. revert out.
  induction Hrs as [|r rs Hr _ IH]; intros out; simpl.
  - by rewrite app_nil_r.
  - destruct (lookup_long r 3 1 Hr) as [d Hd]; [lia|].
    destruct (lookup_long r 3 2 Hr) as [u Hu]; [lia|].
    rewrite Hd, Hu, IH, <- app_assoc. unfold row_record. by rewrite Hd, Hu.
Qed.

Lemma wayback_rows_short (out : list wurl) (rs : list (list string)) :
  Exists (λ r, length r < 3) rs ->
  Wayback.rows false out rs = Panicked.
Proof.
  intros Hrs. revert out.
  induction Hrs as [r rs Hr|r rs _ IH]; intros out; simpl.
  - rewrite (lookup_short r 2 Hr). by destruct (r !! 1).
  - destruct (r !! 1); [|done]. destruct (r !! 2); [|done]. apply IH.
Qed.

Lemma wayback_rows_header (out : list wurl) (wrapper : list (list string)) :
  Wayback.rows true out wrapper = Wayback.rows false out (drop 1 wrapper).
Proof. by destruct wrapper. Qed.

(** ** The version-listing rows *)

Lemma seen_digests_empty : seen_digests ∅ [].
Proof.
  intros k. rewrite lookup_empty. simpl. split; [done|]. intros Hk. inversion Hk.
Qed.

Lemma seen_digests_insert (seen : gmap string bool) (earlier : list string) (d : string) :
  seen_digests seen earlier -> seen_digests (<[d := true]> seen) (d :: earlier).
Proof.
  intros Hinv k. rewrite elem_of_cons. destruct (decide (d = k)) as [->|Hne].
  - rewrite lookup_insert_eq. simpl. split; [by left|done].
  - rewrite lookup_insert_ne by done. rewrite (Hinv k). split; [by right|].
    intros [->|Hk]; done.
Qed.

Lemma seen_digests_again (seen : gmap string bool) (earlier : list string) (d : string) :
  d ∈ earlier -> seen_digests seen earlier -> seen_digests seen (d :: earlier).
Proof.
  intros Hd Hinv k. rewrite elem_of_cons, (Hinv k). split; [by right|].
  intros [->|Hk]; done.
Qed.

Lemma versions_rows_long (seen : gmap string bool) (earlier : list string)
    (out : list string) (rs : list (list string)) :
  seen_digests seen earlier ->
  Forall (λ s, 6 <= length s) rs ->
  Versions.rows false seen out rs
  = Returned (out ++ (row_snapshot <$> keep_first digest earlier rs)).
Proof.
  intros Hinv Hrs. revert seen earlier out Hinv.
  induction Hrs as [|s rs Hs _ IH]; intros seen earlier out Hinv; simpl.
  - by rewrite app_nil_r.
  - destruct (lookup_long s 6 5 Hs) as [d Hd]; [lia|].
    destruct (lookup_long s 6 1 Hs) as [ts Hts]; [lia|].
    destruct (lookup_long s 6 2 Hs) as [o Ho]; [lia|].
    assert (Hdig : digest s = d) by (unfold digest; by rewrite Hd).
    rewrite Hd, Hts, Ho, Hdig.
    destruct (decide (d ∈ earlier)) as [Hin|Hnin].
    + apply Hinv in Hin as Hseen. rewrite Hseen.
      apply IH. by apply seen_digests_again.
    + destruct (default false (seen !! d)) eqn:Hseen.
      { apply Hinv in Hseen. done. }
      rewrite (IH _ (d :: earlier)) by (by apply seen_digests_insert).
      rewrite fmap_cons, <- app_assoc. unfold row_snapshot. by rewrite Hts, Ho.
Qed.

Lemma versions_rows_short (seen : gmap string bool) (out : list string)
    (rs : list (list string)) :
  Exists (λ s, length s < 6) rs ->
  Versions.rows false seen out rs = Panicked.
Proof.
  intros Hrs. revert seen out.
  induction Hrs as [s rs Hs|s rs _ IH]; intros seen out; simpl.
  - by rewrite (lookup_short s 5 Hs).
  - destruct (s !! 5); [|done].
    destruct (default false _); [apply IH|].
    destruct (s !! 1); [|done]. destruct (s !! 2); [|done]. apply IH.
Qed.

Lemma versions_rows_header (seen : gmap string bool) (out : list string)
    (r : list (list string)) :
  Versions.rows true seen out r = Versions.rows false seen out (drop 1 r).
Proof. by destruct r. Qed.

(** ** The archive-index adapter *)

(** C5: whatever the first row of the decoded archive-index answer holds, it
    is skipped; every later row gives one record, its date from column 1 and
    its URL from column 2, in the order of the answer (the rows after the
    first having their three columns). *)
Theorem wayback_first_row_discarded
    (Get : string -> reply Wayback.body) (domain : string) (noSubs : bool)
    (wrapper : list (list string)) (uerr : option error) :
  Get (Wayback.fetchURL domain noSubs) = GetReplied (ReadDone (Decoded wrapper uerr)) ->
  Forall (λ r, 3 <= length r) (drop 1 wrapper) ->
  exists out,
    outcome (Wayback.getWaybackURLs Get domain noSubs) = Returned (out, None)
    /\ out = row_record <$> drop 1 wrapper
    /\ length out = length wrapper - 1
    /\ forall i r, wrapper !! S i = Some r ->
         exists d u, r !! 1 = Some d /\ r !! 2 = Some u /\ out !! i = Some (Wurl d u).
Proof.
  intros HGet Hrows. exists (row_record <$> drop 1 wrapper).
  split; [|split; [done|split]].
  - unfold Wayback.getWaybackURLs. simpl. rewrite HGet.
    by rewrite wayback_rows_header, wayback_rows_long.
  - by rewrite length_fmap, length_drop.
  - intros i r Hr.
    assert (Hr' : drop 1 wrapper !! i = Some r) by (by rewrite lookup_drop).
    rewrite Forall_lookup in Hrows. specialize (Hrows i r Hr').
    destruct (lookup_long r 3 1 Hrows) as [d Hd]; [lia|].
    destruct (lookup_long r 3 2 Hrows) as [u Hu]; [lia|].
    exists d, u. split; [done|]. split; [done|].
    rewrite list_lookup_fmap, Hr'. simpl. unfold row_record. by rewrite Hd, Hu.
Qed.

Lemma wayback_first_row_discarded_witness :
  exists out,
    outcome (Wayback.getWaybackURLs
               (λ _, GetReplied (ReadDone (Decoded
                  [ []; ["com,example)/"; "20200101000000"; "http://example.com/a"];
                    ["com,example)/b"; "20210101000000"; "http://example.com/b"] ] None)))
               "example.com" false) = Returned (out, None)
    /\ out = [Wurl "20200101000000" "http://example.com/a";
              Wurl "20210101000000" "http://example.com/b"].
Proof.
  destruct (wayback_first_row_discarded
              (λ _, GetReplied (ReadDone (Decoded
                  [ []; ["com,example)/"; "20200101000000"; "http://example.com/a"];
                    ["com,example)/b"; "20210101000000"; "http://example.com/b"] ] None)))
              "example.com" false _ None eq_refl) as (out & Hout & Heq & _).
  - repeat constructor; simpl; lia.
  - exists out. split; [exact Hout|exact Heq].
Defined.

(** C10: with an archive-index answer decoded into rows, [getWaybackURLs]
    panics exactly when a row after the first has fewer than three columns,
    and returns exactly when all of them have three; [getVersions], on an
    answer decoded without error, panics exactly when a row after the first
    has fewer than six columns and returns exactly when all have six. *)
Theorem short_rows_panic :
  (forall (Get : string -> reply Wayback.body) (domain : string) (noSubs : bool)
          (wrapper : list (list string)) (uerr : option error),
      Get (Wayback.fetchURL domain noSubs) = GetReplied (ReadDone (Decoded wrapper uerr)) ->
      (Exists (λ r, length r < 3) (drop 1 wrapper) <->
       outcome (Wayback.getWaybackURLs Get domain noSubs) = Panicked)
      /\ (Forall (λ r, 3 <= length r) (drop 1 wrapper) <->
          exists res, outcome (Wayback.getWaybackURLs Get domain noSubs) = Returned res))
  /\ (forall (Get : string -> reply Versions.body) (u : string)
             (r : list (list string)),
      Get (Versions.fetchURL u) = GetReplied (Decoded r None) ->
      (Exists (λ s, length s < 6) (drop 1 r) <->
       outcome (Versions.getVersions Get u) = Panicked)
      /\ (Forall (λ s, 6 <= length s) (drop 1 r) <->
          exists res, outcome (Versions.getVersions Get u) = Returned res)).
Proof.
  split.
  - intros Get domain noSubs wrapper uerr HGet.
    unfold Wayback.getWaybackURLs. simpl. rewrite HGet, wayback_rows_header.
    destruct (rows_long_or_short 3 (drop 1 wrapper)) as [Hl|Hs].
    + rewrite (wayback_rows_long _ _ Hl). split; split; try done.
      * intros Hs. exfalso. apply Exists_exists in Hs as (x & Hx & Hlen).
        rewrite Forall_forall in Hl. specialize (Hl x Hx). lia.
      * intros _. eauto.
    + rewrite (wayback_rows_short _ _ Hs). split; split; try done.
      * intros Hl. exfalso. apply Exists_exists in Hs as (x & Hx & Hlen).
        rewrite Forall_forall in Hl. specialize (Hl x Hx). lia.
      * intros [res Hres]. done.
  - intros Get u r HGet.
    unfold Versions.getVersions. simpl. rewrite HGet, versions_rows_header.
    destruct (rows_long_or_short 6 (drop 1 r)) as [Hl|Hs].
    + rewrite (versions_rows_long _ [] _ _ seen_digests_empty Hl).
      split; split; try done.
      * intros Hs. exfalso. apply Exists_exists in Hs as (x & Hx & Hlen).
        rewrite Forall_forall in Hl. specialize (Hl x Hx). lia.
      * intros _. eauto.
    + rewrite (versions_rows_short _ _ _ Hs). split; split; try done.
      * intros Hl. exfalso. apply Exists_exists in Hs as (x & Hx & Hlen).
        rewrite Forall_forall in Hl. specialize (Hl x Hx). lia.
      * intros [res Hres]. done.
Qed.

Lemma short_rows_panic_witness :
  outcome (Wayback.getWaybackURLs
             (λ _, GetReplied (ReadDone (Decoded
                [ ["urlkey"; "timestamp"; "original"]; ["com,example)/"; "20200101000000"] ]
                None)))
             "example.com" true) = Panicked
  /\ outcome (Versions.getVersions
             (λ _, GetReplied (Decoded
                [ ["urlkey"; "timestamp"; "original"; "mimetype"; "statuscode"; "digest"; "length"];
                  ["com,example)/"; "20200101000000"; "http://example.com/"; "text/html"; "200"] ]
                None))
             "http://example.com/") = Panicked.
Proof.
  split.
  - apply (proj1 short_rows_panic
             (λ _, GetReplied (ReadDone (Decoded
                [ ["urlkey"; "timestamp"; "original"]; ["com,example)/"; "20200101000000"] ]
                None)))
             "example.com" true _ None eq_refl).
    apply Exists_cons_hd. simpl. lia.
  - apply (proj2 short_rows_panic
             (λ _, GetReplied (Decoded
                [ ["urlkey"; "timestamp"; "original"; "mimetype"; "statuscode"; "digest"; "length"];
                  ["com,example)/"; "20200101000000"; "http://example.com/"; "text/html"; "200"] ]
                None))
             "http://example.com/" _ eq_refl).
    apply Exists_cons_hd. simpl. lia.
Defined.

(** ** The version lister *)

(** C7: on an answer decoded without error whose rows after the first have
    their six columns, [getVersions] skips the first row, keeps of the
    others the first one of every digest (column 5) and drops the later ones
    whatever their other columns hold, and returns for every kept row the
    text "https://web.archive.org/web/", column 1, "if_/", column 2, in the
    order of the answer; two rows sharing their digest give one snapshot
    URL. *)
Theorem versions_first_by_digest
    (Get : string -> reply Versions.body) (u : string) (r : list (list string)) :
  Get (Versions.fetchURL u) = GetReplied (Decoded r None) ->
  Forall (λ s, 6 <= length s) (drop 1 r) ->
  exists kept,
    outcome (Versions.getVersions Get u) = Returned (row_snapshot <$> kept, None)
    /\ kept = first_by digest (drop 1 r)
    /\ kept `sublist_of` drop 1 r
    /\ NoDup (digest <$> kept)
    /\ (forall s, s ∈ kept <->
          exists l1 l2, drop 1 r = l1 ++ s :: l2 /\ (digest s ∉ (digest <$> l1)))
    /\ (forall s, s ∈ kept ->
          exists ts original d,
            s !! 1 = Some ts /\ s !! 2 = Some original /\ s !! 5 = Some d
            /\ digest s = d
            /\ row_snapshot s
               = "https://web.archive.org/web/" +:+ ts +:+ "if_/" +:+ original)
    /\ (forall hdr s1 s2,
          r = [hdr; s1; s2] -> s1 !! 5 = s2 !! 5 -> kept = [s1]).
Proof.
  intros HGet Hrows. exists (first_by digest (drop 1 r)).
  repeat split.
  - unfold Versions.getVersions. simpl. rewrite HGet, versions_rows_header.
    by rewrite (versions_rows_long _ [] _ _ seen_digests_empty Hrows).
  - apply keep_first_sublist.
  - apply keep_first_NoDup.
  - by apply first_by_elem.
  - by apply first_by_elem.
  - intros s Hs.
    assert (Hin : s ∈ drop 1 r).
    { eapply elem_of_sublist; [exact Hs|apply keep_first_sublist]. }
    rewrite Forall_forall in Hrows. specialize (Hrows s Hin).
    destruct (lookup_long s 6 1 Hrows) as [ts Hts]; [lia|].
    destruct (lookup_long s 6 2 Hrows) as [o Ho]; [lia|].
    destruct (lookup_long s 6 5 Hrows) as [d Hd]; [lia|].
    exists ts, o, d. unfold digest, row_snapshot. rewrite Hts, Ho, Hd. done.
  - intros hdr s1 s2 -> Heq. unfold first_by. simpl.
    destruct (decide (digest s1 ∈ [])) as [Hin|_]; [inversion Hin|].
    rewrite decide_True; [done|].
    unfold digest. rewrite Heq. by left.
Qed.

Lemma versions_first_by_digest_witness :
  outcome (Versions.getVersions
             (λ _, GetReplied (Decoded
                [ ["urlkey"; "timestamp"; "original"; "mimetype"; "statuscode"; "digest"; "length"];
                  ["com,example)/"; "20200101000000"; "http://example.com/"; "text/html"; "200"; "AAAA"; "512"];
                  ["com,example)/"; "20210101000000"; "http://example.com/"; "text/html"; "301"; "AAAA"; "77"] ]
                None))
             "http://example.com/")
  = Returned (["https://web.archive.org/web/20200101000000if_/http://example.com/"], None).
Proof.
  destruct (versions_first_by_digest
              (λ _, GetReplied (Decoded
                [ ["urlkey"; "timestamp"; "original"; "mimetype"; "statuscode"; "digest"; "length"];
                  ["com,example)/"; "20200101000000"; "http://example.com/"; "text/html"; "200"; "AAAA"; "512"];
                  ["com,example)/"; "20210101000000"; "http://example.com/"; "text/html"; "301"; "AAAA"; "77"] ]
                None))
              "http://example.com/" _ eq_refl)
    as (kept & Hout & _ & _ & _ & _ & _ & Htwo).
  - repeat constructor; simpl; lia.
  - rewrite Hout. rewrite (Htwo _ _ _ eq_refl eq_refl). reflexivity.
Defined.

(** ** The printing loop *)

Lemma stdout_app (es1 es2 : list event) :
  stdout (es1 ++ es2) = stdout es1 ++ stdout es2.
Proof.
  induction es1 as [|[t|t] es1 IH]; simpl; [done| |done]. by rewrite IH.
Qed.

Lemma stdout_print (dates : bool) (w : wurl) :
  stdout (print dates w) = [line dates w].
Proof.
  unfold print, line. destruct dates; [|done].
  destruct (GoTime.Parse (date w)) as [d [e|]]; done.
Qed.

Lemma seen_urls_empty : seen_urls ∅ [].
Proof.
  intros k. rewrite lookup_empty. split.
  - intros [x Hx]. done.
  - intros Hk. inversion Hk.
Qed.

Lemma seen_urls_insert (seen : gmap string bool) (earlier : list string) (u : string) :
  seen_urls seen earlier -> seen_urls (<[u := true]> seen) (u :: earlier).
Proof.
  intros Hinv k. rewrite elem_of_cons. destruct (decide (u = k)) as [->|Hne].
  - rewrite lookup_insert_eq. split; [by left|eauto].
  - rewrite lookup_insert_ne by done. rewrite (Hinv k). split; [by right|].
    intros [->|Hk]; done.
Qed.

Lemma seen_urls_again (seen : gmap string bool) (earlier : list string) (u : string) :
  u ∈ earlier -> seen_urls seen earlier -> seen_urls seen (u :: earlier).
Proof.
  intros Hu Hinv k. rewrite elem_of_cons, (Hinv k). split; [by right|].
  intros [->|Hk]; done.
Qed.

Lemma drain_keep_first (dates : bool) (seen : gmap string bool)
    (earlier : list string) (wurls : list wurl) :
  seen_urls seen earlier ->
  drain dates seen wurls = keep_first url earlier wurls ≫= print dates.
Proof.
  revert seen earlier.
  induction wurls as [|w rest IH]; intros seen earlier Hinv; simpl; [done|].
  destruct (decide (url w ∈ earlier)) as [Hin|Hnin].
  - apply Hinv in Hin as [b Hb]. rewrite Hb.
    apply IH, seen_urls_again; [|done]. apply Hinv. eauto.
  - destruct (seen !! url w) as [b|] eqn:Hb.
    { exfalso. apply Hnin, Hinv. eauto. }
    rewrite bind_cons. f_equal. by apply IH, seen_urls_insert.
Qed.

Lemma stdout_bind_print (dates : bool) (ws : list wurl) :
  stdout (ws ≫= print dates) = line dates <$> ws.
Proof.
  induction ws as [|w ws IH]; [done|].
  by rewrite bind_cons, stdout_app, stdout_print, IH.
Qed.

Lemma stdout_drain (dates : bool) (wurls : list wurl) :
  stdout (drain dates ∅ wurls) = line dates <$> first_by url wurls.
Proof.
  rewrite (drain_keep_first dates ∅ [] wurls seen_urls_empty).
  apply stdout_bind_print.
Qed.

(** C2: of the records received for one domain the loop prints the first
    one of every URL, with the date of that record in dated mode, and
    nothing for any later record of the same URL, whatever its date: one
    line for every distinct URL, none twice. *)
Theorem drain_first_record_wins (dates : bool) (wurls : list wurl) :
  exists kept,
    kept = first_by url wurls
    /\ drain dates ∅ wurls = kept ≫= print dates
    /\ stdout (drain dates ∅ wurls) = line dates <$> kept
    /\ kept `sublist_of` wurls
    /\ NoDup (url <$> kept)
    /\ (forall w, w ∈ wurls -> url w ∈ url <$> kept)
    /\ (forall w, w ∈ kept <->
          exists l1 l2, wurls = l1 ++ w :: l2 /\ (url w ∉ (url <$> l1)))
    /\ (forall d1 d2 u,
          wurls = [Wurl d1 u; Wurl d2 u] -> kept = [Wurl d1 u]).
Proof.
  exists (first_by url wurls).
  assert (Hd : drain dates ∅ wurls = first_by url wurls ≫= print dates)
    by apply drain_keep_first, seen_urls_empty.
  repeat split.
  - exact Hd.
  - rewrite Hd. apply stdout_bind_print.
  - apply keep_first_sublist.
  - apply keep_first_NoDup.
  - apply first_by_covers.
  - by apply first_by_elem.
  - by apply first_by_elem.
  - intros d1 d2 u ->. unfold first_by. simpl.
    destruct (decide (u ∈ [])) as [Hin|_]; [inversion Hin|].
    rewrite decide_True; [done|]. by left.
Qed.

(** C9: the map [seen] is made anew for every domain: what is printed for a
    domain does not depend on the domains before it, and a URL received for
    a domain is printed for it even when it was printed for an earlier
    domain. *)
Theorem seen_fresh_per_domain (dates : bool) :
  (forall before wurls after,
      domains_loop dates (before ++ wurls :: after)
      = domains_loop dates before ++ drain dates ∅ wurls
          ++ domains_loop dates after)
  /\ (forall before wurls after w,
        w ∈ wurls ->
        exists w', w' ∈ wurls /\ url w' = url w
          /\ line dates w' ∈ stdout (drain dates ∅ wurls)
          /\ line dates w' ∈ stdout (domains_loop dates (before ++ wurls :: after)))
  /\ (forall w,
        stdout (domains_loop dates [[w]; [w]]) = [line dates w; line dates w]).
Proof.
  assert (Hsplit : forall before wurls after,
      domains_loop dates (before ++ wurls :: after)
      = domains_loop dates before ++ drain dates ∅ wurls
          ++ domains_loop dates after).
  { intros before wurls after.
    induction before as [|ws before IH]; simpl; [done|].
    by rewrite IH, app_assoc. }
  split; [exact Hsplit|split].
  - intros before wurls after w Hw.
    apply (first_by_covers url), list_elem_of_fmap in Hw as (w' & Hu & Hw').
    exists w'. split.
    { eapply elem_of_sublist; [exact Hw'|apply keep_first_sublist]. }
    split; [done|].
    assert (Hl : line dates w' ∈ stdout (drain dates ∅ wurls)).
    { rewrite stdout_drain. by apply list_elem_of_fmap_2. }
    split; [done|].
    rewrite Hsplit, !stdout_app, !elem_of_app. right. by left.
  - intros w. simpl. rewrite lookup_empty. simpl.
    rewrite !app_nil_r, stdout_app, stdout_print. done.
Qed.

Lemma drain_first_record_wins_witness :
  stdout (drain false ∅ [Wurl "20200101000000" "http://example.com/a";
                         Wurl "20210101000000" "http://example.com/a"])
  = ["http://example.com/a" +:+ nl].
Proof.
  pose proof (drain_first_record_wins false
                [Wurl "20200101000000" "http://example.com/a";
                 Wurl "20210101000000" "http://example.com/a"]) as [kept H].
  destruct H as (Hk & Hd & Hout & Hsub & Hnd & Hcov & Hfirst & Htwo).
  rewrite Hout, (Htwo _ _ _ eq_refl). reflexivity.
Defined.

Lemma seen_fresh_per_domain_witness :
  exists w',
    w' ∈ [Wurl "" "http://example.com/a"]
    /\ url w' = "http://example.com/a"
    /\ line false w' ∈ stdout (drain false ∅ [Wurl "" "http://example.com/a"])
    /\ line false w' ∈
         stdout (domains_loop false
                   ([[Wurl "" "http://example.com/a"]]
                      ++ [Wurl "" "http://example.com/a"] :: [])).
Proof.
  apply (proj1 (proj2 (seen_fresh_per_domain false))
           [[Wurl "" "http://example.com/a"]] [Wurl "" "http://example.com/a"] []
           (Wurl "" "http://example.com/a")).
  constructor.
Defined.

(** ** Dates *)

Module GoTimeFacts.

Import GoTime.
Local Open Scope Z_scope.

Lemma digit_char_digit (d : Z) :
  0 <= d <= 9 -> is_digit (digit_char d) = true /\ digit (digit_char d) = d.
Proof.
  intros Hd.
  assert (Hcases : d = 0 \/ d = 1 \/ d = 2 \/ d = 3 \/ d = 4 \/ d = 5
                   \/ d = 6 \/ d = 7 \/ d = 8 \/ d = 9) by lia.
  repeat (destruct Hcases as [->|Hcases]; [by split|]). by subst.
Qed.

Lemma atoi_digits (c : ascii) (s : string) :
  is_digit c = true -> atoi (String c s) = digits 0 (String c s).
Proof.
  destruct c as [[] [] [] [] [] [] [] []]; try discriminate; reflexivity.
Qed.

Lemma substring_all (s : string) : substring 0 (String.length s) s = s.
Proof. induction s as [|c s IH]; simpl; [done|]. by rewrite IH. Qed.

Lemma substring_none (s : string) : substring 0 0 s = "".
Proof. by destruct s. Qed.

Lemma getnum_two (a b : ascii) (rest : string) (fixed : bool) :
  is_digit a = true -> is_digit b = true ->
  getnum (String a (String b rest)) fixed = Some (digit a * 10 + digit b, rest).
Proof. intros Ha Hb. unfold getnum. by rewrite Ha, Hb. Qed.

Lemma getyear_four (a b c d : ascii) (rest : string) :
  is_digit a = true -> is_digit b = true -> is_digit c = true ->
  is_digit d = true ->
  getyear (String a (String b (String c (String d rest))))
  = Some (((digit a * 10 + digit b) * 10 + digit c) * 10 + digit d, rest).
Proof.
  intros Ha Hb Hc Hd. unfold getyear.
  replace (substring 0 4 (String a (String b (String c (String d rest)))))
    with (String a (String b (String c (String d ""))))
    by (simpl; by rewrite substring_none).
  replace (substring 4 _ (String a (String b (String c (String d rest)))))
    with rest by (simpl; by rewrite Nat.sub_0_r, substring_all).
  replace (isDigit (String a (String b (String c (String d rest)))) 0)
    with true by (unfold isDigit; simpl; done).
  replace (String.length (String a (String b (String c (String d rest)))) <? 4)%nat
    with false by done.
  rewrite atoi_digits by done. simpl. rewrite Ha, Hb, Hc, Hd. simpl.
  done.
Qed.

Lemma getnum_pad2 (x : Z) (rest : string) (fixed : bool) :
  0 <= x <= 99 -> getnum (pad2 x +:+ rest) fixed = Some (x, rest).
Proof.
  intros Hx.
  destruct (digit_char_digit (x / 10 mod 10)) as [Ha Hda]; [Z.div_mod_to_equations; lia|].
  destruct (digit_char_digit (x mod 10)) as [Hb Hdb]; [Z.div_mod_to_equations; lia|].
  change (pad2 x +:+ rest)
    with (String (digit_char (x / 10 mod 10)) (String (digit_char (x mod 10)) rest)).
  rewrite getnum_two, Hda, Hdb by done. do 2 f_equal. Z.div_mod_to_equations. lia.
Qed.

Lemma getyear_pad4 (y : Z) (rest : string) :
  0 <= y <= 9999 -> getyear (pad4 y +:+ rest) = Some (y, rest).
Proof.
  intros Hy.
  destruct (digit_char_digit (y / 1000 mod 10)) as [Ha Hda]; [Z.div_mod_to_equations; lia|].
  destruct (digit_char_digit (y / 100 mod 10)) as [Hb Hdb]; [Z.div_mod_to_equations; lia|].
  destruct (digit_char_digit (y / 10 mod 10)) as [Hc Hdc]; [Z.div_mod_to_equations; lia|].
  destruct (digit_char_digit (y mod 10)) as [Hd Hdd]; [Z.div_mod_to_equations; lia|].
  change (pad4 y +:+ rest)
    with (String (digit_char (y / 1000 mod 10)) (String (digit_char (y / 100 mod 10))
           (String (digit_char (y / 10 mod 10)) (String (digit_char (y mod 10)) rest)))).
  rewrite getyear_four, Hda, Hdb, Hdc, Hdd by done. do 2 f_equal. Z.div_mod_to_equations. lia.
Qed.

(** The elements of the layout, read one after the other. *)
Lemma parse_elements (v0 v1 v2 v3 v4 v5 : string) (y mo d h mi s : Z) :
  getyear v0 = Some (y, v1) -> getnum v1 true = Some (mo, v2) ->
  getnum v2 true = Some (d, v3) -> getnum v3 false = Some (h, v4) ->
  getnum v4 true = Some (mi, v5) -> getnum v5 true = Some (s, "") ->
  1 <= mo <= 12 -> 1 <= d <= daysIn mo y ->
  0 <= h < 24 -> 0 <= mi < 60 -> 0 <= s < 60 ->
  parse v0 = Some (MkTime y mo d h mi s 0).
Proof.
  intros H0 H1 H2 H3 H4 H5 Hmo Hd Hh Hmi Hs.
  unfold parse. rewrite H0. simpl. rewrite H1. simpl.
  replace ((mo <=? 0) || (12 <? mo)) with false by lia.
  rewrite H2. simpl. rewrite H3. simpl.
  replace ((h <? 0) || (24 <=? h)) with false by lia.
  rewrite H4. simpl.
  replace ((mi <? 0) || (60 <=? mi)) with false by lia.
  rewrite H5. simpl.
  replace ((s <? 0) || (60 <=? s)) with false by lia.
  replace ((d <? 1) || (daysIn mo y <? d)) with false by lia.
  done.
Qed.

(** A timestamp of fourteen digits that names a day and a time of day is
    parsed into that time. *)
Lemma Parse_fourteen_digits (y mo d h mi s : Z) :
  0 <= y <= 9999 -> 1 <= mo <= 12 -> 1 <= d <= daysIn mo y ->
  0 <= h < 24 -> 0 <= mi < 60 -> 0 <= s < 60 ->
  Parse (pad4 y +:+ pad2 mo +:+ pad2 d +:+ pad2 h +:+ pad2 mi +:+ pad2 s +:+ "")
  = (MkTime y mo d h mi s 0, None).
Proof.
  intros Hy Hmo Hd Hh Hmi Hs.
  assert (Hd31 : daysIn mo y <= 31).
  { unfold daysIn. repeat case_match; lia. }
  unfold Parse.
  erewrite parse_elements; [done|..]; try eassumption.
  - by apply getyear_pad4.
  - apply getnum_pad2. lia.
  - apply getnum_pad2. lia.
  - apply getnum_pad2. lia.
  - apply getnum_pad2. lia.
  - apply getnum_pad2. lia.
Qed.

Lemma Parse_error (value : string) (t : Time) (e : error) :
  Parse value = (t, Some e) -> t = zero.
Proof.
  unfold Parse. destruct (parse value); intros H; by inversion H.
Qed.

Lemma RFC3339_zero : RFC3339 zero = "0001-01-01T00:00:00Z".
Proof. reflexivity. Qed.

End GoTimeFacts.

(** C6: in dated mode a record whose date parses is printed as the RFC 3339
    text of that time, a space and the URL; a date of fourteen digits
    YYYYMMDDHHMMSS that names a day and a time of day parses, so the
    date 20200101000000 with the URL http://x.test/ gives the line
    "2020-01-01T00:00:00Z http://x.test/".  A record whose date does not
    parse is printed too, with the date of the zero time, after a warning
    on the standard error stream, and the loop goes on with the records
    that follow. *)
Theorem dated_line_always_printed :
  (forall (seen : gmap string bool) (w : wurl) (rest : list wurl) (t : GoTime.Time),
      seen !! url w = None ->
      GoTime.Parse (date w) = (t, None) ->
      drain true seen (w :: rest)
      = Stdout (GoTime.RFC3339 t +:+ " " +:+ url w +:+ nl)
          :: drain true (<[url w := true]> seen) rest)
  /\ (forall (y mo d h mi s : Z) (u : string),
        (0 <= y <= 9999)%Z -> (1 <= mo <= 12)%Z ->
        (1 <= d <= GoTime.daysIn mo y)%Z ->
        (0 <= h < 24)%Z -> (0 <= mi < 60)%Z -> (0 <= s < 60)%Z ->
        print true
          (Wurl (GoTime.pad4 y +:+ GoTime.pad2 mo +:+ GoTime.pad2 d
                   +:+ GoTime.pad2 h +:+ GoTime.pad2 mi +:+ GoTime.pad2 s +:+ "") u)
        = [Stdout (GoTime.pad4 y +:+ "-" +:+ GoTime.pad2 mo +:+ "-" +:+ GoTime.pad2 d
                     +:+ "T" +:+ GoTime.pad2 h +:+ ":" +:+ GoTime.pad2 mi +:+ ":"
                     +:+ GoTime.pad2 s +:+ "Z" +:+ " " +:+ u +:+ nl)])
  /\ drain true ∅ [Wurl "20200101000000" "http://x.test/"]
     = [Stdout ("2020-01-01T00:00:00Z http://x.test/" +:+ nl)]
  /\ (forall (seen : gmap string bool) (w : wurl) (rest : list wurl)
             (t : GoTime.Time) (e : error),
        seen !! url w = None ->
        GoTime.Parse (date w) = (t, Some e) ->
        drain true seen (w :: rest)
        = Stderr ("failed to parse date [" +:+ date w +:+ "] for URL [" +:+ url w
                    +:+ "]" +:+ nl)
            :: Stdout ("0001-01-01T00:00:00Z" +:+ " " +:+ url w +:+ nl)
            :: drain true (<[url w := true]> seen) rest)
  /\ drain true ∅ [Wurl "2020-01-01" "http://x.test/"; Wurl "" "http://y.test/"]
     = [Stderr ("failed to parse date [2020-01-01] for URL [http://x.test/]" +:+ nl);
        Stdout ("0001-01-01T00:00:00Z http://x.test/" +:+ nl);
        Stderr ("failed to parse date [] for URL [http://y.test/]" +:+ nl);
        Stdout ("0001-01-01T00:00:00Z http://y.test/" +:+ nl)].
Proof.
  split; [|split; [|split; [|split]]].
  - intros seen w rest t Hseen Hparse. simpl. rewrite Hseen.
    unfold print. by rewrite Hparse.
  - intros y mo d h mi s u Hy Hmo Hd Hh Hmi Hs. unfold print.
    cbn [date url].
    by rewrite GoTimeFacts.Parse_fourteen_digits.
  - reflexivity.
  - intros seen w rest t e Hseen Hparse. simpl. rewrite Hseen.
    unfold print. rewrite Hparse.
    by rewrite (GoTimeFacts.Parse_error _ _ _ Hparse).
  - reflexivity.
Qed.

Lemma dated_line_always_printed_witness :
  drain true ∅ [Wurl "19991231235959" "http://x.test/"; Wurl "n/a" "http://y.test/"]
  = [Stdout ("1999-12-31T23:59:59Z http://x.test/" +:+ nl);
     Stderr ("failed to parse date [n/a] for URL [http://y.test/]" +:+ nl);
     Stdout ("0001-01-01T00:00:00Z http://y.test/" +:+ nl)].
Proof.
  rewrite (proj1 dated_line_always_printed ∅
             (Wurl "19991231235959" "http://x.test/") [Wurl "n/a" "http://y.test/"]
             (GoTime.MkTime 1999 12 31 23 59 59 0));
    [|apply lookup_empty|reflexivity].
  rewrite (proj1 (proj2 (proj2 (proj2 dated_line_always_printed)))
             (<["http://x.test/" := true]> ∅)
             (Wurl "n/a" "http://y.test/") [] GoTime.zero
             "parsing time: cannot parse n/a");
    [reflexivity|reflexivity|reflexivity].
Defined.

(** ** The dispatcher *)

Section DispatcherFacts.

Context {URL : Type}.
Variable url_Parse : string -> option URL.
Variable Hostname : URL -> string.
Variable ToLower : string -> string.

Lemma send_elem (noSubs : bool) (domain : string) (resp : list wurl) (r : wurl) :
  r ∈ send url_Parse Hostname ToLower noSubs domain resp <->
  r ∈ resp /\ noSubs && isSubdomain url_Parse Hostname ToLower (url r) domain = false.
Proof.
  induction resp as [|x resp IH]; simpl.
  - rewrite elem_of_nil. tauto.
  - destruct (noSubs && isSubdomain url_Parse Hostname ToLower (url x) domain) eqn:Hx.
    + rewrite IH, elem_of_cons. split; [tauto|].
      intros [[->|Hr] Hk]; [congruence|tauto].
    + rewrite !elem_of_cons, IH. split; [|tauto].
      intros [->|Hr]; tauto.
Qed.

Lemma send_sublist (noSubs : bool) (domain : string) (resp : list wurl) :
  send url_Parse Hostname ToLower noSubs domain resp `sublist_of` resp.
Proof.
  induction resp as [|x resp IH]; simpl; [constructor|].
  destruct (noSubs && isSubdomain url_Parse Hostname ToLower (url x) domain).
  - by apply sublist_cons.
  - by apply sublist_skip.
Qed.

Lemma send_all (domain : string) (resp : list wurl) :
  send url_Parse Hostname ToLower false domain resp = resp.
Proof. induction resp as [|x resp IH]; simpl; [done|]. by rewrite IH. Qed.

(** C3: with [noSubs] set, a record whose URL has a host that differs from
    the domain, both in lower case, is not sent on the channel; a record
    whose host equals the domain in lower case is sent, and so is a record
    whose URL does not parse; the records sent keep their order.  With
    [noSubs] not set every record is sent. *)
Theorem subdomain_records_dropped (noSubs : bool) (domain : string)
    (resp : list wurl) :
  (noSubs = false -> send url_Parse Hostname ToLower noSubs domain resp = resp)
  /\ send url_Parse Hostname ToLower noSubs domain resp `sublist_of` resp
  /\ (forall r, r ∈ resp -> noSubs = true ->
        (url_Parse (url r) = None -> r ∈ send url_Parse Hostname ToLower noSubs domain resp)
        /\ (forall u, url_Parse (url r) = Some u ->
              ToLower (Hostname u) = ToLower domain ->
              r ∈ send url_Parse Hostname ToLower noSubs domain resp)
        /\ (forall u, url_Parse (url r) = Some u ->
              ToLower (Hostname u) <> ToLower domain ->
              r ∉ send url_Parse Hostname ToLower noSubs domain resp)).
Proof.
  split; [|split].
  - intros ->. apply send_all.
  - apply send_sublist.
  - intros r Hr ->. split; [|split].
    + intros Hp. apply send_elem. unfold isSubdomain. by rewrite Hp.
    + intros u Hp Heq. apply send_elem. unfold isSubdomain. rewrite Hp. simpl.
      by rewrite bool_decide_true.
    + intros u Hp Hne [_ Hk]%send_elem. unfold isSubdomain in Hk.
      rewrite Hp in Hk. simpl in Hk. by rewrite bool_decide_false in Hk.
Qed.

End DispatcherFacts.

Lemma subdomain_records_dropped_witness :
  (Wurl "" "http://sub.example.com/a"
     ∉ send Sample.url_Parse Sample.Hostname Sample.ToLower true "example.com"
         [Wurl "" "http://sub.example.com/a"; Wurl "" "http://EXAMPLE.com/b";
          Wurl "" "://nothing"])
  /\ (Wurl "" "http://EXAMPLE.com/b"
        ∈ send Sample.url_Parse Sample.Hostname Sample.ToLower true "example.com"
            [Wurl "" "http://sub.example.com/a"; Wurl "" "http://EXAMPLE.com/b";
             Wurl "" "://nothing"])
  /\ (Wurl "" "://nothing"
        ∈ send Sample.url_Parse Sample.Hostname Sample.ToLower true "example.com"
            [Wurl "" "http://sub.example.com/a"; Wurl "" "http://EXAMPLE.com/b";
             Wurl "" "://nothing"]).
Proof.
  pose proof (subdomain_records_dropped Sample.url_Parse Sample.Hostname
                Sample.ToLower true "example.com"
                [Wurl "" "http://sub.example.com/a"; Wurl "" "http://EXAMPLE.com/b";
                 Wurl "" "://nothing"]) as (_ & _ & Hrec).
  split; [|split].
  - refine (proj2 (proj2 (Hrec (Wurl "" "http://sub.example.com/a") _ eq_refl))
              "sub.example.com" eq_refl _).
    + apply list_elem_of_here.
    + discriminate.
  - refine (proj1 (proj2 (Hrec (Wurl "" "http://EXAMPLE.com/b") _ eq_refl))
              "EXAMPLE.com" eq_refl _).
    + apply list_elem_of_further, list_elem_of_here.
    + reflexivity.
  - refine (proj1 (Hrec (Wurl "" "://nothing") _ eq_refl) _).
    + apply list_elem_of_further, list_elem_of_further, list_elem_of_here.
    + reflexivity.
Defined.

Lemma merged_tasks (tasks : list (list wurl)) (ws : list wurl) :
  merged tasks ws -> ws ≡ₚ concat tasks.
Proof.
  induction 1 as [tasks Hall|tasks i w q ws Hi _ IH].
  - induction Hall as [|q tasks -> _ IH]; [done|]. simpl. exact IH.
  - rewrite IH.
    rewrite <- (take_drop_middle tasks i (w :: q) Hi) at 2.
    rewrite insert_take_drop by (by eapply lookup_lt_Some).
    rewrite !concat_app, !concat_cons. simpl.
    by rewrite Permutation_middle.
Qed.

(** ** Errors of the transport *)

Lemma wayback_transport_error (Get : string -> reply Wayback.body)
    (domain : string) (noSubs : bool) (e : error) :
  Get (Wayback.fetchURL domain noSubs) = GetFailed e
  \/ Get (Wayback.fetchURL domain noSubs) = GetReplied (ReadFailed e) ->
  outcome (Wayback.getWaybackURLs Get domain noSubs) = Returned ([], Some e).
Proof.
  unfold Wayback.getWaybackURLs. simpl. intros [->| ->]; done.
Qed.

Lemma commoncrawl_transport_error (Get : string -> reply CommonCrawl.body)
    (domain : string) (noSubs : bool) (e : error) :
  Get (CommonCrawl.fetchURL domain noSubs) = GetFailed e ->
  outcome (CommonCrawl.getCommonCrawlURLs Get domain noSubs) = Returned ([], Some e).
Proof.
  unfold CommonCrawl.getCommonCrawlURLs. simpl. by intros ->.
Qed.

Lemma virustotal_transport_error (env : gmap string string)
    (Get : string -> reply VirusTotal.body) (domain : string) (noSubs : bool)
    (e : error) :
  VirusTotal.Getenv env "VT_API_KEY" <> "" ->
  Get (VirusTotal.fetchURL (VirusTotal.Getenv env "VT_API_KEY") domain) = GetFailed e ->
  outcome (VirusTotal.getVirusTotalURLs env Get domain noSubs) = Returned ([], Some e).
Proof.
  intros Hkey HGet. unfold VirusTotal.getVirusTotalURLs.
  rewrite bool_decide_false by done. simpl. by rewrite HGet.
Qed.

Lemma versions_decode_error (Get : string -> reply Versions.body) (u : string)
    (r : list (list string)) (e : error) :
  Get (Versions.fetchURL u) = GetReplied (Decoded r (Some e)) ->
  outcome (Versions.getVersions Get u) = Returned ([], Some e).
Proof.
  unfold Versions.getVersions. simpl. by intros ->.
Qed.

(** C1: an answer of the archive index that is not JSON leaves [wrapper]
    empty and makes [json.Unmarshal] return an error; [getWaybackURLs]
    returns no record and a nil error.  An answer decoded in part, with an
    error, gives the records of the rows decoded and a nil error, and the
    task sends them.  [getVirusTotalURLs] returns a nil error in the same
    way, where [getVersions] returns the error of its decoder. *)
Theorem decode_error_swallowed :
  outcome (Wayback.getWaybackURLs
             (λ _, GetReplied (ReadDone (Decoded []
                (Some "invalid character '<' looking for beginning of value"))))
             "example.com" false)
  = Returned ([], None)
  /\ outcome (Wayback.getWaybackURLs
             (λ _, GetReplied (ReadDone (Decoded
                [ ["urlkey"; "timestamp"; "original"; "statuscode"];
                  ["com,example)/"; "20200101000000"; "http://example.com/"; ""] ]
                (Some "json: cannot unmarshal number into Go value of type string"))))
             "example.com" false)
     = Returned ([Wurl "20200101000000" "http://example.com/"], None)
  /\ task Sample.url_Parse Sample.Hostname Sample.ToLower false "example.com"
       (outcome (Wayback.getWaybackURLs
             (λ _, GetReplied (ReadDone (Decoded
                [ ["urlkey"; "timestamp"; "original"; "statuscode"];
                  ["com,example)/"; "20200101000000"; "http://example.com/"; ""] ]
                (Some "json: cannot unmarshal number into Go value of type string"))))
             "example.com" false))
     = Returned [Wurl "20200101000000" "http://example.com/"]
  /\ outcome (VirusTotal.getVirusTotalURLs {[ "VT_API_KEY" := "key" ]}
             (λ _, GetReplied (Decoded []
                (Some "invalid character '<' looking for beginning of value")))
             "example.com" false)
     = Returned ([], None)
  /\ outcome (Versions.getVersions
             (λ _, GetReplied (Decoded []
                (Some "invalid character '<' looking for beginning of value")))
             "http://example.com/")
     = Returned ([], Some "invalid character '<' looking for beginning of value").
Proof.
  repeat split; reflexivity.
Qed.

(** ** The reputation-index adapter without a key *)

(** C4: when the variable VT_API_KEY is not set or is empty,
    [getVirusTotalURLs] requests nothing and returns no record and a nil
    error, so that its task sends nothing. *)
Theorem virustotal_without_key (env : gmap string string)
    (Get : string -> reply VirusTotal.body) (domain : string) (noSubs : bool) :
  env !! "VT_API_KEY" = None \/ env !! "VT_API_KEY" = Some "" ->
  VirusTotal.getVirusTotalURLs env Get domain noSubs = Call [] (Returned ([], None))
  /\ forall (URL : Type) (url_Parse : string -> option URL)
            (Hostname : URL -> string) (ToLower : string -> string),
       task url_Parse Hostname ToLower noSubs domain
         (outcome (VirusTotal.getVirusTotalURLs env Get domain noSubs))
       = Returned [].
Proof.
  intros Hkey.
  assert (Hcall : VirusTotal.getVirusTotalURLs env Get domain noSubs
                  = Call [] (Returned ([], None))).
  { unfold VirusTotal.getVirusTotalURLs, VirusTotal.Getenv.
    destruct Hkey as [-> | ->]; simpl; done. }
  split; [exact Hcall|]. intros URL url_Parse Hostname ToLower.
  rewrite Hcall. simpl. by destruct noSubs.
Qed.

Lemma virustotal_without_key_witness :
  VirusTotal.getVirusTotalURLs ∅ (λ _, GetFailed "no route to host") "example.com" false
  = Call [] (Returned ([], None)).
Proof.
  apply (virustotal_without_key ∅ (λ _, GetFailed "no route to host")
           "example.com" false).
  left. apply lookup_empty.
Defined.

(** ** The query URLs *)

(** C8, amended: without [noSubs] the archive-index and the crawl-index
    adapters request one URL whose query holds the marker "*." and then the
    target, byte for byte as given; with [noSubs] the query holds the target
    alone.  Nothing is URL-encoded. *)
Theorem query_wildcard_verbatim (domain : string) :
  (forall Get,
      requests (Wayback.getWaybackURLs Get domain false)
      = ["http://web.archive.org/cdx/search/cdx?url=" +:+ "*." +:+ domain
           +:+ "/*&output=json&collapse=urlkey"])
  /\ (forall Get,
        requests (Wayback.getWaybackURLs Get domain true)
        = ["http://web.archive.org/cdx/search/cdx?url=" +:+ domain
             +:+ "/*&output=json&collapse=urlkey"])
  /\ (forall Get,
        requests (CommonCrawl.getCommonCrawlURLs Get domain false)
        = ["http://index.commoncrawl.org/CC-MAIN-2018-22-index?url=" +:+ "*."
             +:+ domain +:+ "/*&output=json"])
  /\ (forall Get,
        requests (CommonCrawl.getCommonCrawlURLs Get domain true)
        = ["http://index.commoncrawl.org/CC-MAIN-2018-22-index?url=" +:+ domain
             +:+ "/*&output=json"]).
Proof.
  repeat split; reflexivity.
Qed.

(** C8 as stated fails: the URL requested is not the one with the marker
    and the target URL-encoded, neither for a domain without [noSubs] nor
    for a target with a path and a query with [noSubs]. *)
Lemma query_not_url_encoded :
  requests (Wayback.getWaybackURLs (λ _, GetFailed "") "example.com" false)
    <> [Escape.spec_fetchURL "example.com" false]
  /\ requests (Wayback.getWaybackURLs (λ _, GetFailed "") "example.com/a b?c=d" true)
    <> [Escape.spec_fetchURL "example.com/a b?c=d" true]
  /\ Escape.spec_fetchURL "example.com" false
     = "http://web.archive.org/cdx/search/cdx?url=%2A.example.com/*&output=json&collapse=urlkey"
  /\ requests (Wayback.getWaybackURLs (λ _, GetFailed "") "example.com" false)
     = ["http://web.archive.org/cdx/search/cdx?url=*.example.com/*&output=json&collapse=urlkey"].
Proof.
  repeat split; try reflexivity; discriminate.
Qed.

(** * Further properties of the adapters *)

Lemma commoncrawl_lines (out : list wurl) (sc : list (decoded CommonCrawl.wrapper)) :
  CommonCrawl.lines out sc
  = out ++ ((λ d, Wurl (CommonCrawl.Timestamp (target d)) (CommonCrawl.URL (target d)))
              <$> filter (λ d, decode_err d = None) sc).
Proof.
  revert out. induction sc as [|[w [e|]] sc IH]; intros out.
  - simpl. by rewrite app_nil_r.
  - rewrite filter_cons_False by (simpl; discriminate). simpl. apply IH.
  - rewrite filter_cons_True by done. simpl. by rewrite IH, <- app_assoc.
Qed.

(** X1: once its request is answered, the crawl-index adapter returns a nil
    error and the records of the lines that decoded, in the order of the
    answer; a line that does not decode is left out and fails nothing. *)
Theorem commoncrawl_bad_lines_skipped
    (Get : string -> reply CommonCrawl.body) (domain : string) (noSubs : bool)
    (sc : list (decoded CommonCrawl.wrapper)) :
  Get (CommonCrawl.fetchURL domain noSubs) = GetReplied sc ->
  outcome (CommonCrawl.getCommonCrawlURLs Get domain noSubs)
  = Returned ((λ d, Wurl (CommonCrawl.Timestamp (target d)) (CommonCrawl.URL (target d)))
                <$> filter (λ d, decode_err d = None) sc, None).
Proof.
  intros HGet. unfold CommonCrawl.getCommonCrawlURLs. simpl.
  by rewrite HGet, commoncrawl_lines.
Qed.

Lemma commoncrawl_bad_lines_skipped_witness :
  outcome (CommonCrawl.getCommonCrawlURLs
             (λ _, GetReplied
                [ Decoded (CommonCrawl.Wrapper "http://example.com/a" "20180521000000") None;
                  Decoded (CommonCrawl.Wrapper "" "") (Some "unexpected end of JSON input");
                  Decoded (CommonCrawl.Wrapper "http://example.com/b" "20180522000000") None ])
             "example.com" false)
  = Returned ([Wurl "20180521000000" "http://example.com/a";
               Wurl "20180522000000" "http://example.com/b"], None).
Proof.
  by rewrite (commoncrawl_bad_lines_skipped _ "example.com" false _ eq_refl).
Defined.

Lemma virustotal_urls (out : list wurl) (us : list string) :
  VirusTotal.urls out us = out ++ (Wurl "" <$> us).
Proof.
  revert out. induction us as [|u us IH]; intros out; simpl.
  - by rewrite app_nil_r.
  - by rewrite IH, <- app_assoc.
Qed.

(** X2: with a key, the reputation-index adapter requests one URL, which
    holds the key and the domain as given, and returns for every detected
    URL of the answer one record with an empty date, in order, and a nil
    error, whatever the decoder reported.  The flag [noSubs] changes nothing
    in what it requests or returns. *)
Theorem virustotal_records (env : gmap string string)
    (Get : string -> reply VirusTotal.body) (domain : string) (noSubs : bool)
    (key : string) (us : list string) (derr : option error) :
  env !! "VT_API_KEY" = Some key ->
  key <> "" ->
  Get (VirusTotal.fetchURL key domain) = GetReplied (Decoded us derr) ->
  VirusTotal.getVirusTotalURLs env Get domain noSubs
  = Call ["https://www.virustotal.com/vtapi/v2/domain/report?apikey=" +:+ key
            +:+ "&domain=" +:+ domain]
         (Returned (Wurl "" <$> us, None))
  /\ VirusTotal.getVirusTotalURLs env Get domain (negb noSubs)
     = VirusTotal.getVirusTotalURLs env Get domain noSubs.
Proof.
  intros Henv Hkey HGet. split; [|done].
  unfold VirusTotal.getVirusTotalURLs, VirusTotal.Getenv. rewrite Henv. simpl.
  rewrite bool_decide_false by done. rewrite HGet.
  by rewrite virustotal_urls.
Qed.

Lemma virustotal_records_witness :
  VirusTotal.getVirusTotalURLs {[ "VT_API_KEY" := "k3y" ]}
    (λ _, GetReplied (Decoded ["http://example.com/x"; "http://example.com/y"] None))
    "example.com" true
  = Call ["https://www.virustotal.com/vtapi/v2/domain/report?apikey=k3y&domain=example.com"]
         (Returned ([Wurl "" "http://example.com/x"; Wurl "" "http://example.com/y"], None)).
Proof.
  assert (Hk : ({[ "VT_API_KEY" := "k3y" ]} : gmap string string) !! "VT_API_KEY"
               = Some "k3y") by apply lookup_singleton_eq.
  assert (Hne : "k3y" <> "") by discriminate.
  exact (proj1 (virustotal_records {[ "VT_API_KEY" := "k3y" ]}
           (λ _, GetReplied (Decoded ["http://example.com/x"; "http://example.com/y"] None))
           "example.com" true "k3y" ["http://example.com/x"; "http://example.com/y"]
           None Hk Hne eq_refl)).
Defined.

(** When its request fails, or when the answer does not decode,
    [getVersions] returns no snapshot and that error: rows decoded in part
    are not read, so that a short row does not panic here.  The URL is put
    into the query as given, without the wildcard marker. *)
Theorem versions_error_returned (Get : string -> reply Versions.body)
    (u : string) (e : error) :
  Get (Versions.fetchURL u) = GetFailed e
  \/ (exists r, Get (Versions.fetchURL u) = GetReplied (Decoded r (Some e))) ->
  Versions.getVersions Get u
  = Call ["http://web.archive.org/cdx/search/cdx?url=" +:+ u +:+ "&output=json"]
         (Returned ([], Some e)).
Proof.
  unfold Versions.getVersions. simpl. intros [->|[r ->]]; done.
Qed.

Lemma versions_error_returned_witness :
  Versions.getVersions
    (λ _, GetReplied (Decoded [ ["urlkey"]; ["short"] ]
                        (Some "json: cannot unmarshal number into Go value of type string")))
    "http://example.com/"
  = Call ["http://web.archive.org/cdx/search/cdx?url=http://example.com/&output=json"]
         (Returned ([], Some "json: cannot unmarshal number into Go value of type string")).
Proof.
  apply (versions_error_returned _ "http://example.com/").
  right. by eexists.
Defined.

(** ** Counting the first elements *)

Lemma first_by_size {A : Type} (key : A -> string) (l : list A) :
  length (first_by key l) = size (list_to_set (key <$> l) : gset string).
Proof.
  assert (Hset : (list_to_set (key <$> l) : gset string)
                 = list_to_set (key <$> first_by key l)).
  { apply set_eq. intros k. rewrite !elem_of_list_to_set, !list_elem_of_fmap.
    split.
    - intros (x & -> & Hx). apply (first_by_covers key) in Hx.
      by apply list_elem_of_fmap in Hx.
    - intros (x & -> & Hx). exists x. split; [done|].
      eapply elem_of_sublist; [exact Hx|apply keep_first_sublist]. }
  rewrite Hset, size_list_to_set by apply keep_first_NoDup.
  by rewrite length_fmap.
Qed.

(** X3: on an answer decoded without error whose rows after the first have
    their six columns, [getVersions] returns as many snapshot URLs as there
    are distinct digests among these rows. *)
Theorem versions_one_per_digest
    (Get : string -> reply Versions.body) (u : string) (r : list (list string)) :
  Get (Versions.fetchURL u) = GetReplied (Decoded r None) ->
  Forall (λ s, 6 <= length s) (drop 1 r) ->
  exists out,
    outcome (Versions.getVersions Get u) = Returned (out, None)
    /\ length out = size (list_to_set (digest <$> drop 1 r) : gset string).
Proof.
  intros HGet Hrows. exists (row_snapshot <$> first_by digest (drop 1 r)). split.
  - unfold Versions.getVersions. simpl. rewrite HGet, versions_rows_header.
    by rewrite (versions_rows_long _ [] _ _ seen_digests_empty Hrows).
  - by rewrite length_fmap, first_by_size.
Qed.

Lemma versions_one_per_digest_witness :
  exists out,
    outcome (Versions.getVersions
               (λ _, GetReplied (Decoded
                  [ ["urlkey"; "timestamp"; "original"; "mimetype"; "statuscode"; "digest"; "length"];
                    ["k"; "20200101000000"; "http://example.com/"; "text/html"; "200"; "AAAA"; "1"];
                    ["k"; "20200201000000"; "http://example.com/"; "text/html"; "200"; "BBBB"; "2"];
                    ["k"; "20200301000000"; "http://example.com/"; "text/html"; "200"; "AAAA"; "1"] ]
                  None))
               "http://example.com/") = Returned (out, None)
    /\ length out = 2.
Proof.
  destruct (versions_one_per_digest
              (λ _, GetReplied (Decoded
                  [ ["urlkey"; "timestamp"; "original"; "mimetype"; "statuscode"; "digest"; "length"];
                    ["k"; "20200101000000"; "http://example.com/"; "text/html"; "200"; "AAAA"; "1"];
                    ["k"; "20200201000000"; "http://example.com/"; "text/html"; "200"; "BBBB"; "2"];
                    ["k"; "20200301000000"; "http://example.com/"; "text/html"; "200"; "AAAA"; "1"] ]
                  None))
              "http://example.com/" _ eq_refl) as (out & Hout & Hlen).
  - repeat constructor; simpl; lia.
  - exists out. split; [exact Hout|]. rewrite Hlen. by vm_compute.
Defined.

(** * The choice of the sources *)

Lemma Split_comma_cons (s : string) :
  exists piece pieces, Split_comma s = piece :: pieces.
Proof.
  induction s as [|c s (piece & pieces & IH)]; simpl; [by eexists _, _|].
  case_bool_decide; [by eexists _, _|]. rewrite IH. by eexists _, _.
Qed.

Lemma Join_cons (x : string) (elems : list string) (sep : string) :
  elems <> [] -> Join (x :: elems) sep = x +:+ sep +:+ Join elems sep.
Proof. by destruct elems. Qed.

Lemma Split_comma_piece (x rest : string) :
  has_comma x = false ->
  Split_comma (x +:+ "," +:+ rest) = x :: Split_comma rest.
Proof.
  induction x as [|c x IH]; simpl; [done|].
  intros [Hc Hx]%orb_false_iff. rewrite Hc. by rewrite IH.
Qed.

Lemma Split_comma_last (x : string) :
  has_comma x = false -> Split_comma x = [x].
Proof.
  induction x as [|c x IH]; simpl; [done|].
  intros [Hc Hx]%orb_false_iff. rewrite Hc. by rewrite IH.
Qed.

Lemma Split_comma_Join (pieces : list string) :
  pieces <> [] ->
  Forall (λ piece, has_comma piece = false) pieces ->
  Split_comma (Join pieces ",") = pieces.
Proof.
  intros Hne Hall. induction Hall as [|x pieces Hx Hall IH]; [done|].
  destruct pieces as [|y pieces].
  - simpl. by apply Split_comma_last.
  - rewrite Join_cons by done. rewrite Split_comma_piece by done.
    by rewrite IH.
Qed.

Lemma Join_Split_comma (s : string) : Join (Split_comma s) "," = s.
Proof.
  induction s as [|c s IH]; simpl; [done|].
  destruct (Split_comma_cons s) as (piece & pieces & Hs).
  rewrite Hs in IH |- *. case_bool_decide as Hc.
  - subst c. rewrite Join_cons by done. by rewrite IH.
  - destruct pieces as [|y pieces]; simpl in *; by rewrite <- IH.
Qed.

Section SourcesFacts.

Variable TrimSpace : string -> string.

Lemma sources_fold (pieces : list string) (m : gmap string bool) (name : string) :
  default false (foldl (λ m s, <[TrimSpace s := true]> m) m pieces !! name) = true
  <-> default false (m !! name) = true \/ name ∈ TrimSpace <$> pieces.
Proof.
  revert m. induction pieces as [|s pieces IH]; intros m; simpl.
  - rewrite elem_of_nil. tauto.
  - rewrite IH, elem_of_cons. destruct (decide (TrimSpace s = name)) as [->|Hne].
    + rewrite lookup_insert_eq. simpl. tauto.
    + rewrite lookup_insert_ne by done. split; [tauto|].
      intros [?|[->|?]]; tauto.
Qed.

Lemma sources_selected (sourcesFlag name : string) :
  default false (Main.sources TrimSpace sourcesFlag !! name) = true
  <-> name ∈ TrimSpace <$> Split_comma sourcesFlag.
Proof.
  unfold Main.sources. rewrite sources_fold, lookup_empty. simpl.
  split; [|tauto]. intros [?|?]; done.
Qed.

Lemma fetchFns_elem (sourcesFlag : string) (fn : Main.source) :
  fn ∈ Main.fetchFns TrimSpace sourcesFlag
  <-> Main.source_name fn ∈ TrimSpace <$> Split_comma sourcesFlag.
Proof.
  rewrite <- sources_selected. unfold Main.fetchFns.
  destruct (default false (Main.sources TrimSpace sourcesFlag !! "wayback")) eqn:Hw,
    (default false (Main.sources TrimSpace sourcesFlag !! "commoncrawl")) eqn:Hc,
    (default false (Main.sources TrimSpace sourcesFlag !! "virustotal")) eqn:Hv;
    destruct fn; simpl; rewrite ?Hw, ?Hc, ?Hv;
    rewrite ?elem_of_cons, ?elem_of_nil; intuition congruence.
Qed.

(** X4: a source is among the fetch functions exactly when a piece of the
    flag between two commas is its name once [strings.TrimSpace] is applied;
    other pieces are ignored.  Whatever the order and the number of times
    the names are given, the fetch functions come in the order wayback,
    commoncrawl, virustotal, each one once, so that two flags with the same
    names choose the same functions. *)
Theorem fetchFns_chosen (sourcesFlag : string) :
  (forall fn, fn ∈ Main.fetchFns TrimSpace sourcesFlag
      <-> Main.source_name fn ∈ TrimSpace <$> Split_comma sourcesFlag)
  /\ Main.fetchFns TrimSpace sourcesFlag
       `sublist_of` [Main.wayback; Main.commoncrawl; Main.virustotal]
  /\ NoDup (Main.fetchFns TrimSpace sourcesFlag)
  /\ (forall other,
        (forall fn, Main.source_name fn ∈ TrimSpace <$> Split_comma sourcesFlag
            <-> Main.source_name fn ∈ TrimSpace <$> Split_comma other) ->
        Main.fetchFns TrimSpace other = Main.fetchFns TrimSpace sourcesFlag).
Proof.
  assert (Hsub : Main.fetchFns TrimSpace sourcesFlag
            `sublist_of` [Main.wayback; Main.commoncrawl; Main.virustotal]).
  { unfold Main.fetchFns. repeat case_match; simpl; repeat constructor. }
  split; [apply fetchFns_elem|]. split; [exact Hsub|]. split.
  - refine (sublist_NoDup _ _ _ Hsub).
    repeat constructor; rewrite ?elem_of_cons, ?elem_of_nil; intuition congruence.
  - intros other Hsame. unfold Main.fetchFns.
    assert (Hd : forall fn,
              default false (Main.sources TrimSpace other !! Main.source_name fn)
              = default false (Main.sources TrimSpace sourcesFlag !! Main.source_name fn)).
    { intros fn. apply eq_true_iff_eq. by rewrite !sources_selected. }
    pose proof (Hd Main.wayback) as Hw. pose proof (Hd Main.commoncrawl) as Hc.
    pose proof (Hd Main.virustotal) as Hv. simpl in Hw, Hc, Hv.
    by rewrite Hw, Hc, Hv.
Qed.

(** X5: a flag made of names without a comma, joined by commas, chooses the
    sources whose name is one of them once trimmed; in particular the names
    can be given in any order. *)
Theorem fetchFns_of_names (names : list string) :
  names <> [] ->
  Forall (λ name, has_comma name = false) names ->
  Split_comma (Join names ",") = names
  /\ forall fn, fn ∈ Main.fetchFns TrimSpace (Join names ",")
       <-> Main.source_name fn ∈ TrimSpace <$> names.
Proof.
  intros Hne Hall.
  assert (Hs : Split_comma (Join names ",") = names) by by apply Split_comma_Join.
  split; [exact Hs|]. intros fn. by rewrite fetchFns_elem, Hs.
Qed.

End SourcesFacts.

Lemma fetchFns_chosen_witness :
  Main.fetchFns SampleTrim.TrimSpace "virustotal, wayback,unknown,wayback"
  = Main.fetchFns SampleTrim.TrimSpace "wayback,virustotal".
Proof.
  apply (proj2 (proj2 (proj2 (fetchFns_chosen SampleTrim.TrimSpace "wayback,virustotal")))).
  intros fn. destruct fn; refine (bool_decide_unpack _ _); vm_compute; exact I.
Defined.

Lemma fetchFns_of_names_witness :
  Main.wayback ∈ Main.fetchFns SampleTrim.TrimSpace
                   (Join ["commoncrawl"; " wayback "] ",").
Proof.
  apply (proj2 (fetchFns_of_names SampleTrim.TrimSpace ["commoncrawl"; " wayback "]
                  ltac:(discriminate) ltac:(by repeat constructor))).
  apply list_elem_of_further, list_elem_of_here.
Defined.

(** * The mode that lists versions *)

Lemma versions_loop_cons (Get : string -> reply Versions.body) (u : string)
    (rest : list string) :
  Main.versions_loop Get (u :: rest)
  = match outcome (Versions.getVersions Get u) with
    | Panicked => ([], Main.Crashed)
    | Returned (_, Some _) => Main.versions_loop Get rest
    | Returned (versions, None) =>
        (Stdout (Join versions nl +:+ nl) :: (Main.versions_loop Get rest).1,
         (Main.versions_loop Get rest).2)
    end.
Proof.
  cbn [Main.versions_loop].
  destruct (outcome (Versions.getVersions Get u)) as [[versions [e|]]|]; try done.
  by destruct (Main.versions_loop Get rest).
Qed.

Lemma versions_loop_status (Get : string -> reply Versions.body) (domains : list string) :
  Forall (λ u, outcome (Versions.getVersions Get u) <> Panicked) domains ->
  Main.versions_loop Get domains
  = (omap (λ u, match outcome (Versions.getVersions Get u) with
                | Returned (versions, None) => Some (Stdout (Join versions nl +:+ nl))
                | _ => None
                end) domains,
     Main.Exit 0).
Proof.
  induction 1 as [|u domains Hu _ IH]; [done|].
  rewrite versions_loop_cons. cbn [omap list_omap].
  destruct (outcome (Versions.getVersions Get u)) as [[versions [e|]]|]; [| |done].
  - exact IH.
  - by rewrite IH.
Qed.

Lemma versions_loop_panic (Get : string -> reply Versions.body)
    (before : list string) (u : string) (after : list string) :
  Forall (λ u, outcome (Versions.getVersions Get u) <> Panicked) before ->
  outcome (Versions.getVersions Get u) = Panicked ->
  Main.versions_loop Get (before ++ u :: after)
  = ((Main.versions_loop Get before).1, Main.Crashed).
Proof.
  intros Hbefore Hu.
  induction Hbefore as [|v before Hv _ IH].
  - rewrite app_nil_l, versions_loop_cons. by rewrite Hu.
  - rewrite <- app_comm_cons, !versions_loop_cons.
    destruct (outcome (Versions.getVersions Get v)) as [[versions [e|]]|]; [| |done].
    + exact IH.
    + by rewrite IH.
Qed.

Section VersionsMode.

Context {URL : Type}.
Variable url_Parse : string -> option URL.
Variable Hostname : URL -> string.
Variable ToLower : string -> string.
Variable TrimSpace : string -> string.

(** X6: with [-get-versions], when no listing panics, [main] writes for
    every URL whose listing succeeds its snapshot URLs, joined by line
    breaks and followed by one, in the order of the input, and nothing for a
    URL whose listing fails; it ends with status 0.  The other flags have
    no part in it: neither a flag [-sources] without a known name nor a
    concurrency of 0 stops it.  A listing without snapshot gives an empty
    line. *)
Theorem versions_mode_output (F : Main.flags) (W : Main.world)
    (domains : list string) (es : list event) (st : Main.status) :
  Main.getVersionsFlag F = true ->
  Forall (λ u, outcome (Versions.getVersions (Main.versions_Get W) u) <> Panicked)
    domains ->
  Main.main url_Parse Hostname ToLower TrimSpace F W domains es st ->
  es = omap (λ u, match outcome (Versions.getVersions (Main.versions_Get W) u) with
                  | Returned (versions, None) => Some (Stdout (Join versions nl +:+ nl))
                  | _ => None
                  end) domains
  /\ st = Main.Exit 0
  /\ (forall u, u ∈ domains ->
        outcome (Versions.getVersions (Main.versions_Get W) u) = Returned ([], None) ->
        Stdout nl ∈ es).
Proof.
  intros Hmode Hok Hrun.
  assert (Hes : es = omap (λ u, match outcome (Versions.getVersions (Main.versions_Get W) u) with
                  | Returned (versions, None) => Some (Stdout (Join versions nl +:+ nl))
                  | _ => None
                  end) domains /\ st = Main.Exit 0).
  { inversion Hrun as [Hv|Hv|es' st' Hv]; [|congruence|congruence].
    by rewrite (versions_loop_status _ _ Hok). }
  destruct Hes as [Hes Hst]. split; [exact Hes|]. split; [exact Hst|].
  intros u Hu Hnone. rewrite Hes. apply list_elem_of_omap.
  exists u. split; [done|]. by rewrite Hnone.
Qed.

(** X7: with [-get-versions], the first URL whose listing panics ends the
    program; what was printed for the URLs before it stays printed, and
    nothing is printed for the URLs after it. *)
Theorem versions_mode_panic (F : Main.flags) (W : Main.world)
    (before : list string) (u : string) (after : list string)
    (es : list event) (st : Main.status) :
  Main.getVersionsFlag F = true ->
  Forall (λ u, outcome (Versions.getVersions (Main.versions_Get W) u) <> Panicked)
    before ->
  outcome (Versions.getVersions (Main.versions_Get W) u) = Panicked ->
  Main.main url_Parse Hostname ToLower TrimSpace F W (before ++ u :: after) es st ->
  es = (Main.versions_loop (Main.versions_Get W) before).1
  /\ st = Main.Crashed.
Proof.
  intros Hmode Hok Hu Hrun.
  inversion Hrun as [Hv|Hv|es' st' Hv]; [|congruence|congruence].
  by rewrite (versions_loop_panic _ _ _ _ Hok Hu).
Qed.

End VersionsMode.

(** * The channel *)

Lemma merged_idle (tasks : list (list wurl)) (ws : list wurl) :
  merged tasks ws -> merged ([] :: tasks) ws.
Proof.
  induction 1 as [tasks Hall|tasks i w q ws Hi _ IH].
  - apply merged_closed. by constructor.
  - by apply (merged_recv _ (S i) w q).
Qed.

Lemma merged_first (q : list wurl) (tasks : list (list wurl)) (ws : list wurl) :
  merged ([] :: tasks) ws -> merged (q :: tasks) (q ++ ws).
Proof.
  intros Hws. induction q as [|w q IH]; [done|].
  by apply (merged_recv _ 0 w q).
Qed.

(** The tasks can run one after the other. *)
Lemma merged_sequential (tasks : list (list wurl)) : merged tasks (concat tasks).
Proof.
  induction tasks as [|q tasks IH]; simpl.
  - apply merged_closed. constructor.
  - by apply merged_first, merged_idle.
Qed.

Lemma merged_nothing (tasks : list (list wurl)) (ws : list wurl) :
  Forall (λ q, q = []) tasks -> merged tasks ws -> ws = [].
Proof.
  intros Hall Hws. destruct Hws as [|tasks i w q ws Hi _]; [done|].
  rewrite Forall_lookup in Hall. by specialize (Hall i _ Hi).
Qed.

(** * The printing loop, counted *)

Lemma first_by_urls_perm (ws1 ws2 : list wurl) :
  ws1 ≡ₚ ws2 -> url <$> first_by url ws1 ≡ₚ url <$> first_by url ws2.
Proof.
  intros Hperm. apply NoDup_Permutation; [apply keep_first_NoDup..|].
  intros u. rewrite !list_elem_of_fmap. split.
  - intros (w & -> & Hw).
    assert (Hin : w ∈ ws2).
    { rewrite <- Hperm. eapply elem_of_sublist; [exact Hw|apply keep_first_sublist]. }
    apply (first_by_covers url), list_elem_of_fmap in Hin as (w' & Hu & Hw').
    by exists w'.
  - intros (w & -> & Hw).
    assert (Hin : w ∈ ws1).
    { rewrite Hperm. eapply elem_of_sublist; [exact Hw|apply keep_first_sublist]. }
    apply (first_by_covers url), list_elem_of_fmap in Hin as (w' & Hu & Hw').
    by exists w'.
Qed.

Lemma stdout_plain (ws : list wurl) :
  stdout (drain false ∅ ws) = (λ u, u +:+ nl) <$> (url <$> first_by url ws).
Proof.
  rewrite stdout_drain, <- list_fmap_compose. done.
Qed.

(** X8: for the records received for one domain, in any order, the loop
    prints as many lines as there are distinct URLs among them, in both
    modes; without [-dates] the lines printed for two orders of the same
    records are the same up to their order. *)
Theorem drain_counts_distinct_urls (dates : bool) (wurls : list wurl) :
  length (stdout (drain dates ∅ wurls))
  = size (list_to_set (url <$> wurls) : gset string)
  /\ (forall wurls', wurls ≡ₚ wurls' ->
        length (stdout (drain dates ∅ wurls')) = length (stdout (drain dates ∅ wurls))
        /\ stdout (drain false ∅ wurls') ≡ₚ stdout (drain false ∅ wurls)).
Proof.
  assert (Hlen : forall ws, length (stdout (drain dates ∅ ws))
                   = size (list_to_set (url <$> ws) : gset string)).
  { intros ws. by rewrite stdout_drain, length_fmap, first_by_size. }
  split; [apply Hlen|]. intros wurls' Hperm. split.
  - rewrite !Hlen. f_equal. apply set_eq. intros u.
    rewrite !elem_of_list_to_set. by rewrite Hperm.
  - rewrite !stdout_plain. apply fmap_Permutation. symmetry.
    by apply first_by_urls_perm.
Qed.

Lemma drain_counts_distinct_urls_witness :
  length (stdout (drain true ∅ [Wurl "" "http://a/"; Wurl "20200101000000" "http://b/"]))
  = length (stdout (drain true ∅ [Wurl "20200101000000" "http://b/"; Wurl "" "http://a/"])).
Proof.
  apply (proj2 (drain_counts_distinct_urls true
                  [Wurl "20200101000000" "http://b/"; Wurl "" "http://a/"])).
  apply Permutation_swap.
Defined.

(** * The run of [main] *)

Lemma wayback_panics (Get : string -> reply Wayback.body) (domain : string)
    (noSubs : bool) :
  outcome (Wayback.getWaybackURLs Get domain noSubs) = Panicked
  <-> exists wrapper uerr,
        Get (Wayback.fetchURL domain noSubs) = GetReplied (ReadDone (Decoded wrapper uerr))
        /\ Exists (λ r, length r < 3) (drop 1 wrapper).
Proof.
  unfold Wayback.getWaybackURLs. simpl.
  destruct (Get (Wayback.fetchURL domain noSubs)) as [e|[e|[wrapper uerr]]].
  - split; [done|]. by intros (? & ? & ? & _).
  - split; [done|]. by intros (? & ? & ? & _).
  - rewrite wayback_rows_header.
    destruct (rows_long_or_short 3 (drop 1 wrapper)) as [Hl|Hs].
    + rewrite (wayback_rows_long _ _ Hl). split; [done|].
      intros (w' & u' & Heq & Hs). injection Heq as <- <-.
      apply Exists_exists in Hs as (x & Hx & Hlen).
      rewrite Forall_forall in Hl. specialize (Hl x Hx). lia.
    + rewrite (wayback_rows_short _ _ Hs). split; [|done]. intros _. eauto.
Qed.

Lemma commoncrawl_returns (Get : string -> reply CommonCrawl.body) (domain : string)
    (noSubs : bool) :
  outcome (CommonCrawl.getCommonCrawlURLs Get domain noSubs) <> Panicked.
Proof.
  unfold CommonCrawl.getCommonCrawlURLs. simpl.
  by destruct (Get (CommonCrawl.fetchURL domain noSubs)).
Qed.

Lemma virustotal_returns (env : gmap string string)
    (Get : string -> reply VirusTotal.body) (domain : string) (noSubs : bool) :
  outcome (VirusTotal.getVirusTotalURLs env Get domain noSubs) <> Panicked.
Proof.
  unfold VirusTotal.getVirusTotalURLs. case_bool_decide; [done|]. simpl.
  by destruct (Get _) as [e|[us derr]].
Qed.

Lemma fetch_returns (F : Main.flags) (W : Main.world) (fn : Main.source)
    (domain : string) :
  (fn = Main.wayback -> Main.wayback_rows_ok F W domain) ->
  outcome (Main.fetch W fn domain (Main.noSubs F)) <> Panicked.
Proof.
  intros Hok. destruct fn; simpl.
  - specialize (Hok eq_refl). unfold Main.wayback_rows_ok in Hok.
    intros (wrapper & uerr & HGet & Hs)%wayback_panics. rewrite HGet in Hok.
    apply Exists_exists in Hs as (x & Hx & Hlen).
    rewrite Forall_forall in Hok. specialize (Hok x Hx). lia.
  - apply commoncrawl_returns.
  - apply virustotal_returns.
Qed.

Lemma fetch_panics (F : Main.flags) (W : Main.world) (domain : string) :
  ~ Main.wayback_rows_ok F W domain ->
  outcome (Main.fetch W Main.wayback domain (Main.noSubs F)) = Panicked.
Proof.
  intros Hnot. simpl. apply wayback_panics. unfold Main.wayback_rows_ok in Hnot.
  destruct (Main.wayback_Get W _) as [e|[e|[wrapper uerr]]]; [done|done|].
  exists wrapper, uerr. split; [done|].
  destruct (rows_long_or_short 3 (drop 1 wrapper)); done.
Qed.

Lemma wayback_rows_ok_or_not (F : Main.flags) (W : Main.world) (domain : string) :
  Main.wayback_rows_ok F W domain \/ ~ Main.wayback_rows_ok F W domain.
Proof.
  unfold Main.wayback_rows_ok.
  destruct (Main.wayback_Get W _) as [e|[e|[wrapper uerr]]]; [by left|by left|].
  destruct (rows_long_or_short 3 (drop 1 wrapper)) as [Hl|Hs]; [by left|right].
  intros Hl. apply Exists_exists in Hs as (x & Hx & Hlen).
  rewrite Forall_forall in Hl. specialize (Hl x Hx). lia.
Qed.

Lemma all_returned_Forall (ts : list (run (list wurl))) :
  Main.all_returned ts = true <-> Forall (λ t, t <> Panicked) ts.
Proof.
  induction ts as [|t ts IH]; simpl.
  - split; [constructor|done].
  - rewrite andb_true_iff, IH, Forall_cons. destruct t; split; intros [? ?]; done.
Qed.

Lemma queues_elem (ts : list (run (list wurl))) (q : list wurl) :
  q ∈ Main.queues ts <-> Returned q ∈ ts.
Proof.
  unfold Main.queues. rewrite list_elem_of_omap. split.
  - intros ([q'|] & Ht & Heq); [|done]. by injection Heq as ->.
  - intros Ht. by exists (Returned q).
Qed.

Section RunFacts.

Context {URL : Type}.
Variable url_Parse : string -> option URL.
Variable Hostname : URL -> string.
Variable ToLower : string -> string.
Variable TrimSpace : string -> string.

Lemma task_panics (noSubs : bool) (domain : string) (f : run fetched) :
  task url_Parse Hostname ToLower noSubs domain f = Panicked <-> f = Panicked.
Proof. destruct f as [[resp [e|]]|]; simpl; split; done. Qed.

Lemma tasks_all_returned (F : Main.flags) (W : Main.world) (domain : string) :
  Main.all_returned (Main.tasks url_Parse Hostname ToLower TrimSpace F W domain) = true
  <-> (Main.wayback ∈ Main.fetchFns TrimSpace (Main.sourcesFlag F) ->
       Main.wayback_rows_ok F W domain).
Proof.
  rewrite all_returned_Forall. unfold Main.tasks. rewrite Forall_fmap, Forall_forall.
  split.
  - intros Hall Hin.
    destruct (wayback_rows_ok_or_not F W domain) as [|Hnot]; [done|].
    exfalso. apply (Hall _ Hin). simpl. apply task_panics.
    by apply (fetch_panics F W domain).
  - intros Hok fn Hfn. simpl. rewrite task_panics.
    apply fetch_returns. intros ->. by apply Hok.
Qed.

End RunFacts.

Section RunProperties.

Context {URL : Type}.
Variable url_Parse : string -> option URL.
Variable Hostname : URL -> string.
Variable ToLower : string -> string.
Variable TrimSpace : string -> string.

Lemma dispatch_total (F : Main.flags) (W : Main.world) (domains : list string) :
  exists es st, Main.dispatch url_Parse Hostname ToLower TrimSpace F W domains es st.
Proof.
  induction domains as [|domain rest (es & st & IH)].
  - eexists _, _. apply Main.dispatch_done.
  - destruct (Z.lt_trichotomy (Main.concurrency F) 0) as [Hneg|[Hzero|Hpos]].
    + eexists _, _. by apply Main.dispatch_makechan.
    + eexists _, _. by apply Main.dispatch_deadlock.
    + destruct (Main.all_returned
                  (Main.tasks url_Parse Hostname ToLower TrimSpace F W domain)) eqn:Hall.
      * eexists _, _. eapply Main.dispatch_domain; [done|done| |exact IH].
        apply merged_sequential.
      * eexists _, _. eapply Main.dispatch_panic; [done|done| |].
        -- apply merged_sequential.
        -- reflexivity.
Qed.

Lemma dispatch_status (F : Main.flags) (W : Main.world) (domains : list string)
    (es1 es2 : list event) (st1 st2 : Main.status) :
  Main.dispatch url_Parse Hostname ToLower TrimSpace F W domains es1 st1 ->
  Main.dispatch url_Parse Hostname ToLower TrimSpace F W domains es2 st2 ->
  st1 = st2.
Proof.
  intros H1. revert es2 st2.
  induction H1 as [|d rest Hneg|d rest Hzero|d rest ws es st Hpos Hall Hws Hrest IH
                   |d rest ws rcv Hpos Hall Hws Hpre];
    intros es2 st2 H2; inversion H2; subst; try done; try lia; try congruence.
  by eapply IH.
Qed.

Lemma dispatch_received (F : Main.flags) (W : Main.world) (domains : list string)
    (es : list event) :
  Main.dispatch url_Parse Hostname ToLower TrimSpace F W domains es (Main.Exit 0) ->
  exists received,
    Forall2 (λ domain wurls,
       Main.all_returned (Main.tasks url_Parse Hostname ToLower TrimSpace F W domain) = true
       /\ merged (Main.queues (Main.tasks url_Parse Hostname ToLower TrimSpace F W domain))
            wurls) domains received
    /\ es = domains_loop (Main.dates F) received.
Proof.
  intros Hrun. remember (Main.Exit 0) as st eqn:Hst.
  induction Hrun as [|d rest Hneg|d rest Hzero|d rest ws es st Hpos Hall Hws Hrest IH
                     |d rest ws rcv Hpos Hall Hws Hpre]; try done.
  - by exists [].
  - destruct (IH Hst) as (received & Hrec & ->).
    exists (ws :: received). split; [by constructor|done].
Qed.

Lemma dispatch_positive (F : Main.flags) (W : Main.world) (domains : list string)
    (es : list event) (st : Main.status) :
  (0 < Main.concurrency F)%Z ->
  Main.dispatch url_Parse Hostname ToLower TrimSpace F W domains es st ->
  (st = Main.Exit 0 /\
   Forall (λ domain, Main.all_returned
             (Main.tasks url_Parse Hostname ToLower TrimSpace F W domain) = true) domains)
  \/ (st = Main.Crashed /\
      Exists (λ domain, Main.all_returned
                (Main.tasks url_Parse Hostname ToLower TrimSpace F W domain) = false) domains).
Proof.
  intros Hpos Hrun.
  induction Hrun as [|d rest Hneg|d rest Hzero|d rest ws es st _ Hall Hws Hrest IH
                     |d rest ws rcv _ Hall Hws Hpre]; try lia.
  - left. by split.
  - destruct IH as [[-> Hok]|[-> Hbad]].
    + left. split; [done|]. by constructor.
    + right. split; [done|]. by apply Exists_cons_tl.
  - right. split; [done|]. by apply Exists_cons_hd.
Qed.

(** X9: without [-get-versions] and with a known source, a concurrency
    that is not positive lets no domain through: with at least one domain
    nothing is printed and the program does not end in the normal way; with
    capacity 0 every task waits for a token for ever, with a negative
    capacity the channel cannot be made. *)
Theorem limiter_without_capacity (F : Main.flags) (W : Main.world)
    (domain : string) (rest : list string) (es : list event) (st : Main.status) :
  Main.getVersionsFlag F = false ->
  Main.fetchFns TrimSpace (Main.sourcesFlag F) <> [] ->
  (Main.concurrency F <= 0)%Z ->
  Main.main url_Parse Hostname ToLower TrimSpace F W (domain :: rest) es st ->
  es = []
  /\ st = (if (Main.concurrency F =? 0)%Z then Main.Deadlocked else Main.Crashed).
Proof.
  intros Hmode Hfns Hcap Hrun.
  inversion Hrun as [Hv|Hv Hnone|es' st' Hv _ Hd]; [congruence|done|]. subst.
  inversion Hd; subst; try lia.
  - split; [done|]. by rewrite (proj2 (Z.eqb_neq _ _)) by lia.
  - split; [done|]. by rewrite (proj2 (Z.eqb_eq _ _)).
Qed.

(** X10: without [-get-versions], with a known source and a positive
    concurrency, when the rows the archive index answers for the domains
    have their columns (or the archive index is not chosen), [main] has a
    run, and every run ends with status 0, whatever the services answer
    otherwise: no error of a source ends the program. *)
Theorem dispatch_ends_normally (F : Main.flags) (W : Main.world)
    (domains : list string) :
  Main.getVersionsFlag F = false ->
  Main.fetchFns TrimSpace (Main.sourcesFlag F) <> [] ->
  (0 < Main.concurrency F)%Z ->
  (Main.wayback ∈ Main.fetchFns TrimSpace (Main.sourcesFlag F) ->
   Forall (Main.wayback_rows_ok F W) domains) ->
  (exists es, Main.main url_Parse Hostname ToLower TrimSpace F W domains es (Main.Exit 0))
  /\ (forall es st,
        Main.main url_Parse Hostname ToLower TrimSpace F W domains es st ->
        st = Main.Exit 0).
Proof.
  intros Hmode Hfns Hcap Hrows.
  assert (Hall : Forall (λ domain, Main.all_returned
             (Main.tasks url_Parse Hostname ToLower TrimSpace F W domain) = true) domains).
  { apply Forall_forall. intros d Hd. apply tasks_all_returned. intros Hw.
    specialize (Hrows Hw). rewrite Forall_forall in Hrows. by apply Hrows. }
  assert (Hst : forall es st,
             Main.dispatch url_Parse Hostname ToLower TrimSpace F W domains es st ->
             st = Main.Exit 0).
  { intros es st Hd. destruct (dispatch_positive F W domains es st Hcap Hd)
      as [[-> _]|[_ Hbad]]; [done|].
    apply Exists_exists in Hbad as (d & Hd' & Hfalse).
    rewrite Forall_forall in Hall. rewrite (Hall d Hd') in Hfalse. done. }
  split.
  - destruct (dispatch_total F W domains) as (es & st & Hd).
    exists es. rewrite <- (Hst es st Hd). by apply Main.main_dispatch.
  - intros es st Hrun.
    inversion Hrun as [Hv|Hv Hnone|es' st' Hv _ Hd]; [congruence|done|]. subst.
    by eapply Hst.
Qed.

(** X11: without [-get-versions], with the archive index chosen and a
    positive concurrency, a domain for which the archive index answers a
    row after the first with fewer than three columns makes every run end
    in a panic. *)
Theorem short_row_ends_run (F : Main.flags) (W : Main.world)
    (domains : list string) (domain : string) (es : list event) (st : Main.status) :
  Main.getVersionsFlag F = false ->
  Main.wayback ∈ Main.fetchFns TrimSpace (Main.sourcesFlag F) ->
  (0 < Main.concurrency F)%Z ->
  domain ∈ domains ->
  ~ Main.wayback_rows_ok F W domain ->
  Main.main url_Parse Hostname ToLower TrimSpace F W domains es st ->
  st = Main.Crashed.
Proof.
  intros Hmode Hw Hcap Hdom Hnot Hrun.
  inversion Hrun as [Hv|Hv Hnone|es' st' Hv _ Hd]; [congruence| |]; subst.
  { rewrite Hnone in Hw. inversion Hw. }
  destruct (dispatch_positive F W domains es st Hcap Hd) as [[_ Hall]|[-> _]]; [|done].
  rewrite Forall_forall in Hall. specialize (Hall domain Hdom).
  apply tasks_all_returned in Hall; done.
Qed.

(** X12: without [-get-versions], when no piece of the flag [-sources] is
    the name of a source once trimmed, [main] writes one message to the
    standard error stream and exits with status 1, whatever the domains and
    the services: no adapter is called. *)
Theorem no_source_is_fatal (F : Main.flags) (W : Main.world)
    (domains : list string) :
  Main.getVersionsFlag F = false ->
  (forall fn, Main.source_name fn ∉ TrimSpace <$> Split_comma (Main.sourcesFlag F)) ->
  Main.main url_Parse Hostname ToLower TrimSpace F W domains
    [Stderr Main.no_sources] (Main.Exit 1)
  /\ (forall es st,
        Main.main url_Parse Hostname ToLower TrimSpace F W domains es st ->
        es = [Stderr Main.no_sources] /\ st = Main.Exit 1).
Proof.
  intros Hmode Hnone.
  assert (Hfns : Main.fetchFns TrimSpace (Main.sourcesFlag F) = []).
  { destruct (Main.fetchFns TrimSpace (Main.sourcesFlag F)) as [|fn fns] eqn:Hf; [done|].
    exfalso. apply (Hnone fn), fetchFns_elem. rewrite Hf. by left. }
  split; [by apply Main.main_no_sources|].
  intros es st Hrun.
  inversion Hrun as [Hv|Hv Hn|es' st' Hv Hsome Hd]; [congruence|done|done].
Qed.

End RunProperties.

(** * What a run prints *)

Lemma elem_of_concat (qs : list (list wurl)) (r : wurl) :
  r ∈ concat qs <-> exists q, q ∈ qs /\ r ∈ q.
Proof.
  induction qs as [|q qs IH]; simpl.
  - rewrite elem_of_nil. split; [done|]. intros (q & Hq & _). inversion Hq.
  - rewrite elem_of_app, IH. split.
    + intros [Hr|(q' & Hq' & Hr)].
      * exists q. split; [by left|done].
      * exists q'. split; [by right|done].
    + intros (q' & [->|Hq']%elem_of_cons & Hr); [by left|right; by exists q'].
Qed.

Lemma stdout_domains_loop (dates : bool) (received : list (list wurl)) (l : string) :
  l ∈ stdout (domains_loop dates received)
  <-> exists wurls r, wurls ∈ received /\ r ∈ first_by url wurls /\ l = line dates r.
Proof.
  induction received as [|ws received IH]; simpl.
  - rewrite elem_of_nil. split; [done|]. intros (? & ? & Hin & _). inversion Hin.
  - rewrite stdout_app, elem_of_app, IH, stdout_drain, list_elem_of_fmap. split.
    + intros [(r & -> & Hr)|(ws' & r & Hws' & Hr & ->)].
      * exists ws, r. split; [by left|done].
      * exists ws', r. split; [by right|done].
    + intros (ws' & r & [->|Hws']%elem_of_cons & Hr & ->).
      * left. by exists r.
      * right. by exists ws', r.
Qed.

Lemma drain_length_perm (dates : bool) (ws1 ws2 : list wurl) :
  ws1 ≡ₚ ws2 ->
  length (stdout (drain dates ∅ ws1)) = length (stdout (drain dates ∅ ws2)).
Proof.
  intros Hperm. rewrite !stdout_drain, !length_fmap.
  rewrite <- (length_fmap url (first_by url ws1)), <- (length_fmap url (first_by url ws2)).
  by rewrite (first_by_urls_perm _ _ Hperm).
Qed.

Lemma drain_plain_perm (ws1 ws2 : list wurl) :
  ws1 ≡ₚ ws2 -> stdout (drain false ∅ ws1) ≡ₚ stdout (drain false ∅ ws2).
Proof.
  intros Hperm. rewrite !stdout_plain. by apply fmap_Permutation, first_by_urls_perm.
Qed.

Lemma domains_loop_perm (dates : bool) (received1 received2 : list (list wurl)) :
  Forall2 (≡ₚ) received1 received2 ->
  length (stdout (domains_loop dates received1))
  = length (stdout (domains_loop dates received2))
  /\ stdout (domains_loop false received1) ≡ₚ stdout (domains_loop false received2).
Proof.
  induction 1 as [|ws1 ws2 received1 received2 Hws _ [IHlen IHperm]]; simpl; [done|].
  rewrite !stdout_app, !length_app. split.
  - by rewrite IHlen, (drain_length_perm dates _ _ Hws).
  - by rewrite IHperm, (drain_plain_perm _ _ Hws).
Qed.

Section Printed.

Context {URL : Type}.
Variable url_Parse : string -> option URL.
Variable Hostname : URL -> string.
Variable ToLower : string -> string.
Variable TrimSpace : string -> string.

Lemma received_perm (F : Main.flags) (W : Main.world) (domains : list string)
    (received1 received2 : list (list wurl)) :
  Forall2 (λ domain wurls,
     Main.all_returned (Main.tasks url_Parse Hostname ToLower TrimSpace F W domain) = true
     /\ merged (Main.queues (Main.tasks url_Parse Hostname ToLower TrimSpace F W domain))
          wurls) domains received1 ->
  Forall2 (λ domain wurls,
     Main.all_returned (Main.tasks url_Parse Hostname ToLower TrimSpace F W domain) = true
     /\ merged (Main.queues (Main.tasks url_Parse Hostname ToLower TrimSpace F W domain))
          wurls) domains received2 ->
  Forall2 (≡ₚ) received1 received2.
Proof.
  intros H1. revert received2.
  induction H1 as [|d ws1 domains received1 [_ Hm1] _ IH]; intros received2 H2;
    inversion H2 as [|d' ws2 domains' received2' [_ Hm2] Hrest]; subst; constructor.
  - by rewrite (merged_tasks _ _ Hm1), (merged_tasks _ _ Hm2).
  - by apply IH.
Qed.

(** X13: two runs of [main] on the same input end in the same way, however
    the tasks are scheduled; when they end with status 0 they print as many
    lines, and without [-dates] the same lines up to their order. *)
Theorem output_schedule_independent (F : Main.flags) (W : Main.world)
    (domains : list string) (es1 es2 : list event) (st1 st2 : Main.status) :
  Main.main url_Parse Hostname ToLower TrimSpace F W domains es1 st1 ->
  Main.main url_Parse Hostname ToLower TrimSpace F W domains es2 st2 ->
  st1 = st2
  /\ (st1 = Main.Exit 0 ->
      length (stdout es1) = length (stdout es2)
      /\ (Main.dates F = false -> stdout es1 ≡ₚ stdout es2)).
Proof.
  intros H1 H2.
  inversion H1 as [Hv1|Hv1 Hn1|es1' st1' Hv1 Hs1 Hd1];
    inversion H2 as [Hv2|Hv2 Hn2|es2' st2' Hv2 Hs2 Hd2]; subst; try congruence.
  - done.
  - split; [done|]. discriminate.
  - split; [by eapply dispatch_status|]. intros ->.
    assert (st2 = Main.Exit 0) as -> by (symmetry; by eapply dispatch_status).
    apply dispatch_received in Hd1 as (received1 & Hr1 & ->).
    apply dispatch_received in Hd2 as (received2 & Hr2 & ->).
    pose proof (received_perm F W domains _ _ Hr1 Hr2) as Hperm.
    split; [by apply domains_loop_perm|].
    intros ->. by apply (domains_loop_perm false).
Qed.

Lemma record_sent (F : Main.flags) (W : Main.world) (domain : string) (r : wurl) :
  r ∈ concat (Main.queues (Main.tasks url_Parse Hostname ToLower TrimSpace F W domain))
  <-> exists fn resp,
        fn ∈ Main.fetchFns TrimSpace (Main.sourcesFlag F)
        /\ outcome (Main.fetch W fn domain (Main.noSubs F)) = Returned (resp, None)
        /\ r ∈ resp
        /\ Main.noSubs F && isSubdomain url_Parse Hostname ToLower (url r) domain = false.
Proof.
  rewrite elem_of_concat. split.
  - intros (q & Hq & Hr). apply queues_elem in Hq. unfold Main.tasks in Hq.
    apply list_elem_of_fmap in Hq as (fn & Hq & Hfn). exists fn.
    destruct (outcome (Main.fetch W fn domain (Main.noSubs F))) as [[resp [e|]]|];
      simpl in Hq; [|injection Hq as ->|done].
    + injection Hq as ->. inversion Hr.
    + exists resp. apply send_elem in Hr as [Hr Hk]. done.
  - intros (fn & resp & Hfn & Hout & Hr & Hk).
    exists (send url_Parse Hostname ToLower (Main.noSubs F) domain resp). split.
    + apply queues_elem. unfold Main.tasks. apply list_elem_of_fmap.
      exists fn. split; [|done]. by rewrite Hout.
    + by apply send_elem.
Qed.

(** X14: in a run without [-get-versions] that ends with status 0, every
    line printed is the line of a record that a chosen source returned with
    a nil error for one of the domains and that, with [-no-subs], is not of
    a subdomain; and every such record has its URL printed, with its date or
    that of another record of the same URL. *)
Theorem printed_lines_are_fetched (F : Main.flags) (W : Main.world)
    (domains : list string) (es : list event) :
  Main.getVersionsFlag F = false ->
  Main.main url_Parse Hostname ToLower TrimSpace F W domains es (Main.Exit 0) ->
  (forall l, l ∈ stdout es ->
     exists domain fn resp r,
       domain ∈ domains
       /\ fn ∈ Main.fetchFns TrimSpace (Main.sourcesFlag F)
       /\ outcome (Main.fetch W fn domain (Main.noSubs F)) = Returned (resp, None)
       /\ r ∈ resp
       /\ Main.noSubs F && isSubdomain url_Parse Hostname ToLower (url r) domain = false
       /\ l = line (Main.dates F) r)
  /\ (forall domain fn resp r,
        domain ∈ domains ->
        fn ∈ Main.fetchFns TrimSpace (Main.sourcesFlag F) ->
        outcome (Main.fetch W fn domain (Main.noSubs F)) = Returned (resp, None) ->
        r ∈ resp ->
        Main.noSubs F && isSubdomain url_Parse Hostname ToLower (url r) domain = false ->
        exists r', url r' = url r /\ line (Main.dates F) r' ∈ stdout es).
Proof.
  intros Hmode Hrun.
  inversion Hrun as [Hv|Hv Hn|es' st' Hv Hs Hd]; [congruence|]. subst.
  apply dispatch_received in Hd as (received & Hrec & ->). split.
  - intros l (ws & r & Hws & Hr & ->)%stdout_domains_loop.
    apply list_elem_of_lookup in Hws as [i Hi].
    destruct (Forall2_lookup_r _ _ _ _ _ Hrec Hi) as (domain & Hdom & _ & Hm).
    assert (Hin : r ∈ concat (Main.queues
                     (Main.tasks url_Parse Hostname ToLower TrimSpace F W domain))).
    { rewrite <- (merged_tasks _ _ Hm).
      eapply elem_of_sublist; [exact Hr|apply keep_first_sublist]. }
    apply record_sent in Hin as (fn & resp & Hfn & Hout & Hresp & Hk).
    exists domain, fn, resp, r. split; [by eapply list_elem_of_lookup_2|]. done.
  - intros domain fn resp r Hdom Hfn Hout Hr Hk.
    apply list_elem_of_lookup in Hdom as [i Hi].
    destruct (Forall2_lookup_l _ _ _ _ _ Hrec Hi) as (ws & Hws & _ & Hm).
    assert (Hin : r ∈ ws).
    { rewrite (merged_tasks _ _ Hm). apply record_sent. by exists fn, resp. }
    apply (first_by_covers url), list_elem_of_fmap in Hin as (r' & Hu & Hr').
    exists r'. split; [done|]. apply stdout_domains_loop.
    exists ws, r'. split; [by eapply list_elem_of_lookup_2|done].
Qed.

(** X15: without [-get-versions] and with a positive concurrency, a domain
    for which every chosen source returns an error leaves no trace: the
    runs on a list of domains that begins with it are the runs on the rest
    of the list. *)
Theorem failed_domain_prints_nothing (F : Main.flags) (W : Main.world)
    (domain : string) (rest : list string) (es : list event) (st : Main.status) :
  Main.getVersionsFlag F = false ->
  (0 < Main.concurrency F)%Z ->
  (forall fn, fn ∈ Main.fetchFns TrimSpace (Main.sourcesFlag F) ->
     exists resp e, outcome (Main.fetch W fn domain (Main.noSubs F)) = Returned (resp, Some e)) ->
  Main.main url_Parse Hostname ToLower TrimSpace F W (domain :: rest) es st
  <-> Main.main url_Parse Hostname ToLower TrimSpace F W rest es st.
Proof.
  intros Hmode Hcap Hfail.
  assert (Hts : Forall (λ t, t = Returned [])
                  (Main.tasks url_Parse Hostname ToLower TrimSpace F W domain)).
  { unfold Main.tasks. apply Forall_fmap, Forall_forall. intros fn Hfn. simpl.
    destruct (Hfail fn Hfn) as (resp & e & ->). done. }
  assert (Hall : Main.all_returned
                   (Main.tasks url_Parse Hostname ToLower TrimSpace F W domain) = true).
  { apply all_returned_Forall. eapply Forall_impl; [exact Hts|].
    by intros t ->. }
  assert (Hqs : Forall (λ q, q = [])
                  (Main.queues (Main.tasks url_Parse Hostname ToLower TrimSpace F W domain))).
  { apply Forall_forall. intros q Hq%queues_elem.
    rewrite Forall_forall in Hts. specialize (Hts _ Hq). by injection Hts. }
  split; intros Hrun.
  - inversion Hrun as [Hv|Hv Hn|es' st' Hv Hs Hd]; [congruence|by apply Main.main_no_sources|].
    subst. apply Main.main_dispatch; [done|done|].
    inversion Hd; subst; try lia; [|congruence].
    match goal with Hm : merged _ _ |- _ => rewrite (merged_nothing _ _ Hqs Hm) end.
    done.
  - inversion Hrun as [Hv|Hv Hn|es' st' Hv Hs Hd]; [congruence|by apply Main.main_no_sources|].
    subst. apply Main.main_dispatch; [done|done|].
    change es with (drain (Main.dates F) ∅ [] ++ es).
    apply Main.dispatch_domain; [done|done| |done]. by apply merged_closed.
Qed.

End Printed.

(** * Examples of runs *)

Lemma versions_mode_output_witness :
  (Main.versions_loop (Main.versions_Get SampleRun.archive) ["http://example.com/a"]).1
  = [Stdout ("https://web.archive.org/web/20200101000000if_/http://example.com/a" +:+ nl)].
Proof.
  assert (Hok : Forall (λ u, outcome (Versions.getVersions
                               (Main.versions_Get SampleRun.archive) u) <> Panicked)
                  ["http://example.com/a"]).
  { repeat constructor. vm_compute. discriminate. }
  destruct (versions_mode_output Sample.url_Parse Sample.Hostname Sample.ToLower
              SampleTrim.TrimSpace SampleRun.versions SampleRun.archive
              ["http://example.com/a"] _ _ eq_refl Hok
              (Main.main_versions _ _ _ _ SampleRun.versions SampleRun.archive
                 ["http://example.com/a"] eq_refl)) as (Hes & _ & _).
  rewrite Hes. reflexivity.
Defined.

Lemma versions_mode_panic_witness :
  Main.versions_loop (Main.versions_Get SampleRun.truncated)
    ["http://example.com/a"; "http://example.com/b"]
  = ([], Main.Crashed).
Proof.
  destruct (versions_mode_panic Sample.url_Parse Sample.Hostname Sample.ToLower
              SampleTrim.TrimSpace SampleRun.versions SampleRun.truncated
              [] "http://example.com/a" ["http://example.com/b"] _ _ eq_refl
              (Forall_nil_2 _) eq_refl
              (Main.main_versions _ _ _ _ SampleRun.versions SampleRun.truncated
                 ["http://example.com/a"; "http://example.com/b"] eq_refl)) as (Hes & Hst).
  simpl app in Hes, Hst.
  destruct (Main.versions_loop (Main.versions_Get SampleRun.truncated)
              ["http://example.com/a"; "http://example.com/b"]) as [es st].
  simpl in Hes, Hst. by rewrite Hes, Hst.
Defined.

Lemma limiter_without_capacity_witness :
  exists es st,
    Main.main Sample.url_Parse Sample.Hostname Sample.ToLower SampleTrim.TrimSpace
      SampleRun.blocked SampleRun.archive ["example.com"] es st
    /\ es = [] /\ st = Main.Deadlocked.
Proof.
  assert (Hfns : Main.fetchFns SampleTrim.TrimSpace (Main.sourcesFlag SampleRun.blocked) <> [])
    by (vm_compute; discriminate).
  assert (Hrun : Main.main Sample.url_Parse Sample.Hostname Sample.ToLower
                   SampleTrim.TrimSpace SampleRun.blocked SampleRun.archive
                   ["example.com"] [] Main.Deadlocked).
  { apply Main.main_dispatch; [reflexivity|exact Hfns|].
    by apply Main.dispatch_deadlock. }
  exists [], Main.Deadlocked. split; [exact Hrun|].
  apply (limiter_without_capacity Sample.url_Parse Sample.Hostname Sample.ToLower
           SampleTrim.TrimSpace SampleRun.blocked SampleRun.archive "example.com" []
           [] Main.Deadlocked eq_refl Hfns ltac:(simpl; lia) Hrun).
Defined.

Lemma dispatch_ends_normally_witness :
  exists es,
    Main.main Sample.url_Parse Sample.Hostname Sample.ToLower SampleTrim.TrimSpace
      SampleRun.defaults SampleRun.archive ["example.com"; "example.org"] es (Main.Exit 0).
Proof.
  apply (dispatch_ends_normally Sample.url_Parse Sample.Hostname Sample.ToLower
           SampleTrim.TrimSpace SampleRun.defaults SampleRun.archive
           ["example.com"; "example.org"]).
  - reflexivity.
  - vm_compute. discriminate.
  - simpl. lia.
  - intros _. repeat constructor; simpl; lia.
Defined.

Lemma short_row_ends_run_witness :
  exists es,
    Main.main Sample.url_Parse Sample.Hostname Sample.ToLower SampleTrim.TrimSpace
      SampleRun.defaults SampleRun.truncated ["example.com"] es Main.Crashed.
Proof.
  assert (Hfns : Main.fetchFns SampleTrim.TrimSpace (Main.sourcesFlag SampleRun.defaults)
                 = [Main.wayback; Main.commoncrawl; Main.virustotal])
    by (vm_compute; reflexivity).
  destruct (dispatch_total Sample.url_Parse Sample.Hostname Sample.ToLower
              SampleTrim.TrimSpace SampleRun.defaults SampleRun.truncated ["example.com"])
    as (es & st & Hd).
  assert (Hrun : Main.main Sample.url_Parse Sample.Hostname Sample.ToLower
                   SampleTrim.TrimSpace SampleRun.defaults SampleRun.truncated
                   ["example.com"] es st).
  { apply Main.main_dispatch; [reflexivity| |exact Hd]. rewrite Hfns. discriminate. }
  exists es.
  rewrite <- (short_row_ends_run Sample.url_Parse Sample.Hostname Sample.ToLower
                SampleTrim.TrimSpace SampleRun.defaults SampleRun.truncated
                ["example.com"] "example.com" es st); [exact Hrun|reflexivity| | | | |exact Hrun].
  - rewrite Hfns. apply list_elem_of_here.
  - simpl. lia.
  - apply list_elem_of_here.
  - unfold Main.wayback_rows_ok. simpl. intros Hall.
    apply Forall_cons in Hall as [Hlen _]. simpl in Hlen. lia.
Defined.

Lemma no_source_is_fatal_witness :
  Main.main Sample.url_Parse Sample.Hostname Sample.ToLower SampleTrim.TrimSpace
    SampleRun.unknown SampleRun.archive ["example.com"]
    [Stderr Main.no_sources] (Main.Exit 1).
Proof.
  apply (no_source_is_fatal Sample.url_Parse Sample.Hostname Sample.ToLower
           SampleTrim.TrimSpace SampleRun.unknown SampleRun.archive ["example.com"]).
  - reflexivity.
  - intros fn. destruct fn; refine (bool_decide_unpack _ _); vm_compute; exact I.
Defined.

Lemma sample_queues :
  Main.queues (Main.tasks Sample.url_Parse Sample.Hostname Sample.ToLower
                 SampleTrim.TrimSpace SampleRun.defaults SampleRun.archive "example.com")
  = [ [Wurl "20200101000000" "http://example.com/a";
       Wurl "20210101000000" "http://example.com/a"];
      [Wurl "20180521000000" "http://example.com/b"];
      [] ].
Proof. vm_compute. reflexivity. Qed.

Lemma sample_run_archive_first :
  Main.main Sample.url_Parse Sample.Hostname Sample.ToLower SampleTrim.TrimSpace
    SampleRun.defaults SampleRun.archive ["example.com"]
    (drain false ∅ [Wurl "20200101000000" "http://example.com/a";
                    Wurl "20210101000000" "http://example.com/a";
                    Wurl "20180521000000" "http://example.com/b"] ++ [])
    (Main.Exit 0).
Proof.
  apply Main.main_dispatch; [reflexivity|vm_compute; discriminate|].
  apply (Main.dispatch_domain _ _ _ _ SampleRun.defaults);
    [simpl; lia|vm_compute; reflexivity| |apply Main.dispatch_done].
  rewrite sample_queues.
  apply (merged_recv _ 0 _ [Wurl "20210101000000" "http://example.com/a"]); [reflexivity|].
  apply (merged_recv _ 0 _ []); [reflexivity|].
  apply (merged_recv _ 1 _ []); [reflexivity|].
  apply merged_closed. repeat constructor.
Qed.

Lemma sample_run_crawl_first :
  Main.main Sample.url_Parse Sample.Hostname Sample.ToLower SampleTrim.TrimSpace
    SampleRun.defaults SampleRun.archive ["example.com"]
    (drain false ∅ [Wurl "20180521000000" "http://example.com/b";
                    Wurl "20200101000000" "http://example.com/a";
                    Wurl "20210101000000" "http://example.com/a"] ++ [])
    (Main.Exit 0).
Proof.
  apply Main.main_dispatch; [reflexivity|vm_compute; discriminate|].
  apply (Main.dispatch_domain _ _ _ _ SampleRun.defaults);
    [simpl; lia|vm_compute; reflexivity| |apply Main.dispatch_done].
  rewrite sample_queues.
  apply (merged_recv _ 1 _ []); [reflexivity|].
  apply (merged_recv _ 0 _ [Wurl "20210101000000" "http://example.com/a"]); [reflexivity|].
  apply (merged_recv _ 0 _ []); [reflexivity|].
  apply merged_closed. repeat constructor.
Qed.

Lemma output_schedule_independent_witness :
  ["http://example.com/a" +:+ nl; "http://example.com/b" +:+ nl]
  ≡ₚ ["http://example.com/b" +:+ nl; "http://example.com/a" +:+ nl].
Proof.
  destruct (output_schedule_independent Sample.url_Parse Sample.Hostname Sample.ToLower
              SampleTrim.TrimSpace SampleRun.defaults SampleRun.archive ["example.com"]
              _ _ _ _ sample_run_archive_first sample_run_crawl_first) as [_ Hout].
  destruct (Hout eq_refl) as [_ Hperm].
  exact (Hperm eq_refl).
Defined.

Lemma printed_lines_are_fetched_witness :
  exists r',
    url r' = "http://example.com/b"
    /\ line false r' ∈ ["http://example.com/a" +:+ nl; "http://example.com/b" +:+ nl].
Proof.
  destruct (printed_lines_are_fetched Sample.url_Parse Sample.Hostname Sample.ToLower
              SampleTrim.TrimSpace SampleRun.defaults SampleRun.archive ["example.com"]
              _ eq_refl sample_run_archive_first) as [_ Hall].
  refine (Hall "example.com" Main.commoncrawl
            [Wurl "20180521000000" "http://example.com/b"]
            (Wurl "20180521000000" "http://example.com/b") _ _ eq_refl _ eq_refl).
  - apply list_elem_of_here.
  - replace (Main.fetchFns SampleTrim.TrimSpace (Main.sourcesFlag SampleRun.defaults))
      with [Main.wayback; Main.commoncrawl; Main.virustotal] by (vm_compute; reflexivity).
    apply list_elem_of_further, list_elem_of_here.
  - apply list_elem_of_here.
Defined.

Lemma failed_domain_prints_nothing_witness :
  Main.main Sample.url_Parse Sample.Hostname Sample.ToLower SampleTrim.TrimSpace
    SampleRun.two SampleRun.offline ["example.com"] [] (Main.Exit 0).
Proof.
  assert (Hfns : Main.fetchFns SampleTrim.TrimSpace (Main.sourcesFlag SampleRun.two)
                 = [Main.wayback; Main.commoncrawl]) by (vm_compute; reflexivity).
  apply (failed_domain_prints_nothing Sample.url_Parse Sample.Hostname Sample.ToLower
           SampleTrim.TrimSpace SampleRun.two SampleRun.offline "example.com" []).
  - reflexivity.
  - simpl. lia.
  - intros fn. rewrite Hfns. intros Hfn.
    apply elem_of_cons in Hfn as [->|Hfn]; [by eexists _, _|].
    apply elem_of_cons in Hfn as [->|Hfn]; [by eexists _, _|].
    inversion Hfn.
  - apply Main.main_dispatch; [reflexivity|rewrite Hfns; discriminate|].
    apply Main.dispatch_done.
Defined.

(** * Timestamps that parse *)

Module GoTimeInverse.

Import GoTime.
Local Open Scope Z_scope.

Lemma digit_of_char (c : ascii) :
  is_digit c = true -> digit_char (digit c) = c /\ 0 <= digit c <= 9.
Proof.
  destruct c as [[] [] [] [] [] [] [] []]; try discriminate; intros _; by vm_compute.
Qed.

Lemma pad2_digits (a b : ascii) :
  is_digit a = true -> is_digit b = true ->
  pad2 (digit a * 10 + digit b) = String a (String b "")
  /\ 0 <= digit a * 10 + digit b <= 99.
Proof.
  intros [Ha Hra]%digit_of_char [Hb Hrb]%digit_of_char. split; [|lia].
  unfold pad2.
  replace ((digit a * 10 + digit b) / 10 mod 10) with (digit a)
    by (Z.div_mod_to_equations; lia).
  replace ((digit a * 10 + digit b) mod 10) with (digit b)
    by (Z.div_mod_to_equations; lia).
  by rewrite Ha, Hb.
Qed.

Lemma getnum_fixed_inv (s : string) (x : Z) (rest : string) :
  getnum s true = Some (x, rest) -> s = pad2 x +:+ rest /\ 0 <= x <= 99.
Proof.
  unfold getnum. destruct s as [|a [|b s]]; [done| |].
  - by destruct (is_digit a).
  - destruct (is_digit a) eqn:Ha; [|done]. destruct (is_digit b) eqn:Hb; [|done].
    intros [= <- <-]. destruct (pad2_digits a b Ha Hb) as [-> Hr]. done.
Qed.

Lemma getnum_free_inv (s : string) (x : Z) (rest : string) :
  getnum s false = Some (x, rest) ->
  (s = pad2 x +:+ rest /\ 0 <= x <= 99) \/ getnum rest true = None.
Proof.
  unfold getnum at 1. destruct s as [|a [|b s]]; [done| |].
  - destruct (is_digit a); [|done]. intros [= <- <-]. by right.
  - destruct (is_digit a) eqn:Ha; [|done]. destruct (is_digit b) eqn:Hb.
    + intros [= <- <-]. left. destruct (pad2_digits a b Ha Hb) as [-> Hr]. done.
    + intros [= <- <-]. right. unfold getnum. by rewrite Hb.
Qed.

Lemma pad4_digits (a b c d : ascii) :
  is_digit a = true -> is_digit b = true -> is_digit c = true -> is_digit d = true ->
  pad4 (((digit a * 10 + digit b) * 10 + digit c) * 10 + digit d)
  = String a (String b (String c (String d "")))
  /\ 0 <= ((digit a * 10 + digit b) * 10 + digit c) * 10 + digit d <= 9999.
Proof.
  intros [Ha Hra]%digit_of_char [Hb Hrb]%digit_of_char
         [Hc Hrc]%digit_of_char [Hd Hrd]%digit_of_char.
  split; [|lia]. unfold pad4, pad2.
  set (y := ((digit a * 10 + digit b) * 10 + digit c) * 10 + digit d).
  replace (y / 1000 mod 10) with (digit a) by (subst y; Z.div_mod_to_equations; lia).
  replace (y / 100 mod 10) with (digit b) by (subst y; Z.div_mod_to_equations; lia).
  replace (y / 10 mod 10) with (digit c) by (subst y; Z.div_mod_to_equations; lia).
  replace (y mod 10) with (digit d) by (subst y; Z.div_mod_to_equations; lia).
  by rewrite Ha, Hb, Hc, Hd.
Qed.

Lemma getyear_inv (value : string) (y : Z) (rest : string) :
  getyear value = Some (y, rest) -> value = pad4 y +:+ rest /\ 0 <= y <= 9999.
Proof.
  unfold getyear.
  destruct value as [|a [|b [|c [|d v]]]]; try done.
  replace (substring 0 4 (String a (String b (String c (String d v)))))
    with (String a (String b (String c (String d ""))))
    by (simpl; by rewrite GoTimeFacts.substring_none).
  replace (substring 4 _ (String a (String b (String c (String d v)))))
    with v by (simpl; by rewrite Nat.sub_0_r, GoTimeFacts.substring_all).
  replace (String.length (String a (String b (String c (String d v)))) <? 4)%nat
    with false by done.
  replace (isDigit (String a (String b (String c (String d v)))) 0)
    with (is_digit a) by done.
  destruct (is_digit a) eqn:Ha; [|done]. simpl negb. simpl orb. cbv iota.
  rewrite GoTimeFacts.atoi_digits by done. simpl digits. rewrite Ha.
  destruct (is_digit b) eqn:Hb; [|done]. destruct (is_digit c) eqn:Hc; [|done].
  destruct (is_digit d) eqn:Hd; [|done]. simpl.
  intros [= <- <-].
  destruct (pad4_digits a b c d Ha Hb Hc Hd) as [Hp Hr].
  replace (((0 * 10 + digit a) * 10 + digit b) * 10 + digit c) with
    ((digit a * 10 + digit b) * 10 + digit c) by lia.
  by rewrite Hp.
Qed.

(** A timestamp that parses begins with the fourteen digits of the time it
    is parsed into, which names a day and a time of day. *)
Lemma parse_inv (value : string) (t : Time) :
  parse value = Some t ->
  (exists frac,
     value = pad4 (year t) +:+ pad2 (month t) +:+ pad2 (day t) +:+ pad2 (hour t)
               +:+ pad2 (minute t) +:+ pad2 (second t) +:+ frac)
  /\ 0 <= year t <= 9999 /\ 1 <= month t <= 12 /\ 1 <= day t <= daysIn (month t) (year t)
  /\ 0 <= hour t < 24 /\ 0 <= minute t < 60 /\ 0 <= second t < 60.
Proof.
  unfold parse.
  destruct (getyear value) as [[y v1]|] eqn:H0; [|done]. simpl.
  destruct (getnum v1 true) as [[mo v2]|] eqn:H1; [|done]. simpl.
  destruct ((mo <=? 0) || (12 <? mo)) eqn:Rmo; [done|].
  destruct (getnum v2 true) as [[d v3]|] eqn:H2; [|done]. simpl.
  destruct (getnum v3 false) as [[h v4]|] eqn:H3; [|done]. simpl.
  destruct ((h <? 0) || (24 <=? h)) eqn:Rh; [done|].
  destruct (getnum v4 true) as [[mi v5]|] eqn:H4; [|done]. simpl.
  destruct ((mi <? 0) || (60 <=? mi)) eqn:Rmi; [done|].
  destruct (getnum v5 true) as [[s v6]|] eqn:H5; [|done]. simpl.
  destruct ((s <? 0) || (60 <=? s)) eqn:Rs; [done|].
  destruct (fraction v6) as [[ns v7]|] eqn:H6; [|done]. simpl.
  destruct (negb (bool_decide (v7 = ""))) eqn:Hend; [done|].
  destruct ((d <? 1) || (daysIn mo y <? d)) eqn:Rd; [done|].
  intros [= <-]. simpl.
  apply getyear_inv in H0 as [-> Hy].
  apply getnum_fixed_inv in H1 as [-> _].
  apply getnum_fixed_inv in H2 as [-> _].
  apply getnum_free_inv in H3 as [[-> _]|H3]; [|congruence].
  apply getnum_fixed_inv in H4 as [-> _].
  apply getnum_fixed_inv in H5 as [-> _].
  split; [by exists v6|]. lia.
Qed.

End GoTimeInverse.

(** X16: in dated mode the date printed for a record whose timestamp parses
    repeats the first fourteen bytes of the timestamp, which are the digits
    of a year, a month, a day of that month, an hour, a minute and a second;
    whatever follows them in the timestamp is not printed. *)
Theorem dated_line_repeats_digits (w : wurl) (t : GoTime.Time) :
  GoTime.Parse (date w) = (t, None) ->
  exists (y mo d h mi s : Z) (frac : string),
    date w = GoTime.pad4 y +:+ GoTime.pad2 mo +:+ GoTime.pad2 d +:+ GoTime.pad2 h
               +:+ GoTime.pad2 mi +:+ GoTime.pad2 s +:+ frac
    /\ print true w
       = [Stdout (GoTime.pad4 y +:+ "-" +:+ GoTime.pad2 mo +:+ "-" +:+ GoTime.pad2 d
                    +:+ "T" +:+ GoTime.pad2 h +:+ ":" +:+ GoTime.pad2 mi +:+ ":"
                    +:+ GoTime.pad2 s +:+ "Z" +:+ " " +:+ url w +:+ nl)]
    /\ (0 <= y <= 9999 /\ 1 <= mo <= 12 /\ 1 <= d <= GoTime.daysIn mo y
        /\ 0 <= h < 24 /\ 0 <= mi < 60 /\ 0 <= s < 60)%Z.
Proof.
  intros Hparse.
  assert (Hp : GoTime.parse (date w) = Some t).
  { unfold GoTime.Parse in Hparse. destruct (GoTime.parse (date w)); [|done].
    by injection Hparse as ->. }
  destruct (GoTimeInverse.parse_inv _ _ Hp) as ([frac Hdate] & Hr).
  exists (GoTime.year t), (GoTime.month t), (GoTime.day t), (GoTime.hour t),
    (GoTime.minute t), (GoTime.second t), frac.
  split; [exact Hdate|]. split; [|exact Hr].
  unfold print. by rewrite Hparse.
Qed.

Lemma dated_line_repeats_digits_witness :
  exists (y mo d h mi s : Z) (frac : string),
    "20200229235959.123" = GoTime.pad4 y +:+ GoTime.pad2 mo +:+ GoTime.pad2 d
               +:+ GoTime.pad2 h +:+ GoTime.pad2 mi +:+ GoTime.pad2 s +:+ frac
    /\ print true (Wurl "20200229235959.123" "http://x.test/")
       = [Stdout (GoTime.pad4 y +:+ "-" +:+ GoTime.pad2 mo +:+ "-" +:+ GoTime.pad2 d
                    +:+ "T" +:+ GoTime.pad2 h +:+ ":" +:+ GoTime.pad2 mi +:+ ":"
                    +:+ GoTime.pad2 s +:+ "Z" +:+ " " +:+ "http://x.test/" +:+ nl)]
    /\ (0 <= y <= 9999 /\ 1 <= mo <= 12 /\ 1 <= d <= GoTime.daysIn mo y
        /\ 0 <= h < 24 /\ 0 <= mi < 60 /\ 0 <= s < 60)%Z.
Proof.
  exact (dated_line_repeats_digits (Wurl "20200229235959.123" "http://x.test/")
           (GoTime.MkTime 2020 2 29 23 59 59 123000000) eq_refl).
Defined.

(** * A request that fails *)

(** X17: when the request of an adapter fails (for the archive index also
    when the body cannot be read), the adapter returns no record and that
    error, and its task sends nothing on the channel. *)
Theorem failed_request_drops_source (W : Main.world) (fn : Main.source)
    (domain : string) (noSubs : bool) (e : error) :
  match fn with
  | Main.wayback =>
      Main.wayback_Get W (Wayback.fetchURL domain noSubs) = GetFailed e
      \/ Main.wayback_Get W (Wayback.fetchURL domain noSubs) = GetReplied (ReadFailed e)
  | Main.commoncrawl =>
      Main.commoncrawl_Get W (CommonCrawl.fetchURL domain noSubs) = GetFailed e
  | Main.virustotal =>
      VirusTotal.Getenv (Main.env W) "VT_API_KEY" <> ""
      /\ Main.virustotal_Get W
           (VirusTotal.fetchURL (VirusTotal.Getenv (Main.env W) "VT_API_KEY") domain)
         = GetFailed e
  end ->
  outcome (Main.fetch W fn domain noSubs) = Returned ([], Some e)
  /\ forall (URL : Type) (url_Parse : string -> option URL)
            (Hostname : URL -> string) (ToLower : string -> string),
       task url_Parse Hostname ToLower noSubs domain
         (outcome (Main.fetch W fn domain noSubs))
       = Returned [].
Proof.
  intros Hfail.
  assert (Hout : outcome (Main.fetch W fn domain noSubs) = Returned ([], Some e)).
  { destruct fn; simpl.
    - by apply wayback_transport_error.
    - by apply commoncrawl_transport_error.
    - destruct Hfail as [Hkey HGet]. by apply virustotal_transport_error. }
  split; [exact Hout|]. intros URL url_Parse Hostname ToLower. by rewrite Hout.
Qed.

Lemma failed_request_drops_source_witness :
  outcome (Main.fetch SampleRun.offline Main.wayback "example.com" false)
  = Returned ([], Some "no route to host").
Proof.
  apply (failed_request_drops_source SampleRun.offline Main.wayback "example.com" false
           "no route to host").
  by left.
Defined.
